(** * validate_sed_contents: the recursive SED file validator

    A shallow embedding of [validation/validate_sed_contents.py]: its
    function [_verify_sed_files] and the program that calls it on the
    three sub-directories of the library and prints the report.

    The script is read with the semantics of CPython 3: [open(name, 'r')]
    is a text stream with universal newlines whose lines are [str]
    objects, while [gzip.open(name, 'r')] is a binary stream ('r' means
    'rb' there) whose lines are [bytes] objects.  Subscripting [bytes]
    gives an [int], and an [int] never compares equal to a [str].

    The file system is a finite tree (no symbolic-link cycles).  A
    regular file is either text in the locale encoding, with the
    sequence of characters its stream delivers as payload (after
    decompression for a gzip stream), or bytes on which a text stream
    raises UnicodeDecodeError.  A directory can be listed or not, and
    a directory that can be listed may refuse to be searched, in which
    case nothing below it can be reached.  [numpy.genfromtxt] is not
    part of the repository and is a parameter of the development. *)

From Stdlib Require Import Bool List Arith Lia.
From Stdlib Require Import Strings.Ascii Strings.String.
From Stdlib Require Import ZArith Floats.SpecFloat.
Import ListNotations.
Open Scope string_scope.
Open Scope list_scope.

(** ** Python values the script manipulates *)

(** Exceptions that can leave a call. *)
Inductive exn : Type :=
| FileNotFoundError
| NotADirectoryError
| PermissionError
| IndexError
| TypeError
| UnicodeDecodeError.

(** Outcome of a call: a value, or an exception on its way up. *)
Inductive result (A : Type) : Type :=
| Ok (a : A)
| Raise (e : exn).

Arguments Ok {A} a.
Arguments Raise {A} e.

Definition bind {A B : Type} (r : result A) (k : A -> result B) : result B :=
  match r with
  | Ok a => k a
  | Raise e => Raise e
  end.

Notation "x <- r ;; k" := (bind r (fun x => k))
  (at level 61, r at next level, right associativity).

Definition LF : ascii := "010"%char.
Definition CR : ascii := "013"%char.

(** [s.startswith(prefix)] and [s.endswith(suffix)] on [str]. *)
Definition startswith (s pre : string) : bool := String.prefix pre s.

Definition endswith (s suffix : string) : bool :=
  let n := String.length s in
  let k := String.length suffix in
  (k <=? n)%nat && (String.substring (n - k) k s =? suffix).

(** The two-character string the header test looks for: a closing
    parenthesis and a line feed. *)
Definition paren_newline : string := String ")" (String LF "").

Module posixpath.

(** [os.path.join(a, b)] for two components. *)
Definition join (a b : string) : string :=
  if startswith b "/" then b
  else if (a =? "") || endswith a "/" then (a ++ b)%string
  else (a ++ "/" ++ b)%string.

End posixpath.

Module np.

(** A 64-bit float. *)
Definition float64 : Type := spec_float.

Definition isnan (x : float64) : bool :=
  match x with
  | S754_nan => true
  | _ => false
  end.

(** [a.any()] on an array of booleans. *)
Definition any (a : list bool) : bool := existsb (fun b => b) a.

(** The float a decimal literal without fraction reads as. *)
Definition of_int (z : Z) : float64 := binary_normalize 53 1024 z 0 false.

End np.

(** A row of the structured array of dtype [('wv', float), ('flux', float)]. *)
Record row : Type := mkrow { wv : np.float64; flux : np.float64 }.

(** ** Streams *)

(** A line handed out by iterating over a stream: a [str] from a text
    stream, a [bytes] from a binary one. *)
Inductive pyline : Type :=
| Str (s : string)
| Bytes (b : string).

(** Universal newlines of a text stream: CR LF and a lone CR both read
    as LF. *)
Fixpoint universal_newlines (s : string) : string :=
  match s with
  | EmptyString => EmptyString
  | String c rest =>
      if Ascii.eqb c CR then
        match rest with
        | String c' rest' =>
            if Ascii.eqb c' LF then String LF (universal_newlines rest')
            else String LF (universal_newlines rest)
        | EmptyString => String LF EmptyString
        end
      else String c (universal_newlines rest)
  end.

(** Iteration over a stream: each line keeps its terminating LF; the
    last one has none when the payload does not end in LF. *)
Fixpoint readlines (s : string) : list string :=
  match s with
  | EmptyString => []
  | String c rest =>
      if Ascii.eqb c LF then String c EmptyString :: readlines rest
      else
        match readlines rest with
        | [] => [String c EmptyString]
        | l :: ls => String c l :: ls
        end
  end.

(** [open(full_name, 'r')] on a file that is text in the locale
    encoding: the lines the iteration hands out. *)
Definition open (payload : string) : list pyline :=
  map Str (readlines (universal_newlines payload)).

Module gzip.

(** [gzip.open(full_name, 'r')]: mode 'r' is binary. *)
Definition open (payload : string) : list pyline :=
  map Bytes (readlines payload).

End gzip.

(** [line[0] == '#']. *)
Definition item0_is_hash (line : pyline) : result bool :=
  match line with
  | Str EmptyString => Raise IndexError
  | Str (String c _) => Ok (Ascii.eqb c "#")
  | Bytes EmptyString => Raise IndexError
  | Bytes (String _ _) => Ok false
  end.

(** [prev_line.endswith(')\n')]: a [bytes] receiver refuses a [str]
    argument. *)
Definition line_endswith (prev_line : pyline) (suffix : string) : result bool :=
  match prev_line with
  | Str s => Ok (endswith s suffix)
  | Bytes _ => Raise TypeError
  end.

(** ** The file system *)

(** An entry of the tree:
    - a regular file that is text in the locale encoding, with its
      payload;
    - a directory that can be searched, readable (it can be listed)
      or not, with its entries in the order [os.listdir] reports them;
    - a regular file whose bytes are not text in the locale encoding
      (a compressed or binary file): a text stream on it raises
      UnicodeDecodeError on the first read;
    - a directory that can be listed but not searched (read permission
      without search permission): its entries have names, but nothing
      can be asked about them nor opened. *)
#[warnings="-register-all"]
Inductive node : Type :=
| File (payload : string)
| Dir (readable : bool) (contents : list (string * node))
| Undecodable (raw : string)
| Unsearchable (contents : list (string * node)).

(** [os.path.isdir(full_name)] for an entry of a directory that can be
    searched or not: nothing is a directory when its parent refuses
    the search. *)
Definition isdir (searchable : bool) (entry : node) : bool :=
  searchable &&
  match entry with
  | Dir _ _ | Unsearchable _ => true
  | File _ | Undecodable _ => false
  end.

(** A failure record: the tuple [(full_name, reason)]. *)
Definition failure : Type := (string * string)%type.

(** Line 56: a NaN in either column. *)
Definition has_nan (data : list row) : bool :=
  np.any (map (fun r => np.isnan (wv r)) data)
  || np.any (map (fun r => np.isnan (flux r)) data).

(** Lines 74-83: the loop over the lines of the opened file. *)
Fixpoint header_loop (full_name : string) (prev_line : option pyline)
  (lines : list pyline) (failures : list failure) : result (list failure) :=
  match lines with
  | [] => Ok failures
  | line :: rest =>
      is_header <- item0_is_hash line ;;
      if is_header then header_loop full_name (Some line) rest failures
      else
        match prev_line with
        | None => Ok failures
        | Some p =>
            ends <- line_endswith p paren_newline ;;
            if negb ends then Ok (failures ++ [(full_name, "header")])
            else Ok failures
        end
  end.

(** Lines 68-83: the choice of the opener and the header check. *)
Definition header_check (full_name payload : string) (failures : list failure)
  : result (list failure) :=
  let open_fn := if endswith full_name ".gz" then gzip.open else open in
  header_loop full_name None (open_fn payload) failures.

Section Validator.

(** [np.genfromtxt(full_name, dtype=dtype)] followed by the two field
    accesses of line 56: [None] when anything in the [try] block
    raises. *)
Variable genfromtxt : string -> string -> option (list row).

(** Lines 53-83: the body of the [else] branch, that is the File Check
    on one non-directory entry. *)
Definition file_check (full_name payload : string) (failures : list failure)
  : result (list failure) :=
  match genfromtxt full_name payload with
  | None => Ok (failures ++ [(full_name, "could not load")])
  | Some data =>
      let failures :=
        if has_nan data then failures ++ [(full_name, "nan")] else failures in
      header_check full_name payload failures
  end.

(** Lines 53-83 on a regular file that is not text: the parser reads
    it its own way (it decompresses by extension), a gzip stream is
    binary and decodes nothing, and a text stream raises on the first
    read, outside the [try] block. *)
Definition undecodable_check (full_name raw : string) (failures : list failure)
  : result (list failure) :=
  match genfromtxt full_name raw with
  | None => Ok (failures ++ [(full_name, "could not load")])
  | Some data =>
      let failures :=
        if has_nan data then failures ++ [(full_name, "nan")] else failures in
      if endswith full_name ".gz" then header_check full_name raw failures
      else Raise UnicodeDecodeError
  end.

(** Lines 53-83 on an entry for which [os.path.isdir] answered False.
    The parser cannot open an entry of a directory that refuses the
    search, nor read a directory: it raises inside the [try] block. *)
Definition entry_check (searchable : bool) (full_name : string) (entry : node)
  (failures : list failure) : result (list failure) :=
  if searchable then
    match entry with
    | File payload => file_check full_name payload failures
    | Undecodable raw => undecodable_check full_name raw failures
    | Dir _ _ | Unsearchable _ =>
        Ok (failures ++ [(full_name, "could not load")])
    end
  else Ok (failures ++ [(full_name, "could not load")]).

(** Lines 46-85 on a path that names an existing entry. *)
Fixpoint verify_tree (dir_name : string) (n : node) : result (list failure) :=
  let loop (searchable : bool) :=
    fix loop (contents : list (string * node)) (failures : list failure)
      : result (list failure) :=
      match contents with
      | [] => Ok failures
      | (file_name, entry) :: rest =>
          let full_name := posixpath.join dir_name file_name in
          if isdir searchable entry then
            sub <- verify_tree full_name entry ;;
            loop rest (failures ++ sub)
          else
            failures' <- entry_check searchable full_name entry failures ;;
            loop rest failures'
      end in
  match n with
  | File _ | Undecodable _ => Raise NotADirectoryError
  | Dir false _ => Raise PermissionError
  | Dir true contents => loop true contents []
  | Unsearchable contents => loop false contents []
  end.

(** [_verify_sed_files(dir_name)], where [target] is what [dir_name]
    names in the file system ([None]: nothing). *)
Definition _verify_sed_files (dir_name : string) (target : option node)
  : result (list failure) :=
  match target with
  | None => Raise FileNotFoundError
  | Some n => verify_tree dir_name n
  end.

End Validator.

(** ** Vocabulary of the specification *)

(** The lines of a file read as text. *)
Definition text_lines (payload : string) : list string :=
  readlines (universal_newlines payload).

(** A line beginning with the comment marker. *)
Definition starts_hash (line : string) : bool :=
  match line with
  | EmptyString => false
  | String c _ => Ascii.eqb c "#"
  end.

(** The header: the lines before the first one that does not begin
    with the comment marker; and what follows it. *)
Fixpoint header_lines (lines : list string) : list string :=
  match lines with
  | [] => []
  | l :: rest => if starts_hash l then l :: header_lines rest else []
  end.

Fixpoint after_header (lines : list string) : list string :=
  match lines with
  | [] => []
  | l :: rest => if starts_hash l then after_header rest else lines
  end.

Fixpoint last_line (lines : list string) : option string :=
  match lines with
  | [] => None
  | [l] => Some l
  | _ :: rest => last_line rest
  end.

Definition last_header (lines : list string) : option string :=
  last_line (header_lines lines).

Definition has_data_line (lines : list string) : bool :=
  match after_header lines with
  | [] => false
  | _ :: _ => true
  end.

(** A header that is absent or whose last line ends as expected. *)
Definition header_ok (lines : list string) : Prop :=
  match last_header lines with
  | None => True
  | Some h => endswith h paren_newline = true
  end.

(** A NaN somewhere in the parsed data. *)
Definition contains_nan (data : list row) : Prop :=
  exists r, In r data /\ (np.isnan (wv r) = true \/ np.isnan (flux r) = true).

(** The records the NaN check appends. *)
Definition nan_records (full_name : string) (data : list row) : list failure :=
  if has_nan data then [(full_name, "nan")] else [].

(** Number of records for a file and a reason in a list of failures. *)
Definition record_eqb (a b : failure) : bool :=
  (fst a =? fst b) && (snd a =? snd b).

Definition count_records (full_name reason : string) (l : list failure) : nat :=
  List.length (filter (record_eqb (full_name, reason)) l).

(** A line that holds at least one character. *)
Definition nonempty (l : string) : Prop := l <> EmptyString.

(** The line the test of lines 79-80 looks at when the loop, entered
    with [prev] as previous header line, meets the first data line. *)
Definition header_seen (prev : option string) (lines : list string)
  : option string :=
  match last_header lines with
  | Some h => Some h
  | None => prev
  end.

(** Whether the loop appends a header failure. *)
Definition verdict (prev : option string) (lines : list string) : bool :=
  has_data_line lines &&
  match header_seen prev lines with
  | Some h => negb (endswith h paren_newline)
  | None => false
  end.

(** The records the header check appends to any list of failures. *)
Definition header_records (full_name payload : string) : list failure :=
  if endswith full_name ".gz" then []
  else if verdict None (text_lines payload) then [(full_name, "header")]
  else [].

(** Results of a list of calls, left to right, up to the first one
    that raises. *)
Fixpoint sequence {A : Type} (rs : list (result A)) : result (list A) :=
  match rs with
  | [] => Ok []
  | r :: rest => x <- r ;; xs <- sequence rest ;; Ok (x :: xs)
  end.

(** The concatenation of the lists the calls return. *)
Definition concat_results {A : Type} (rs : list (result (list A)))
  : result (list A) :=
  ls <- sequence rs ;; Ok (List.concat ls).

(** A file with the given full name and payload lies in the tree that
    [dir_name] names, at any depth. *)
Inductive file_at : string -> node -> string -> string -> Prop :=
| file_here (dir_name : string) (readable : bool)
    (contents : list (string * node)) (file_name payload : string) :
    In (file_name, File payload) contents ->
    file_at dir_name (Dir readable contents)
      (posixpath.join dir_name file_name) payload
| file_below (dir_name : string) (readable : bool)
    (contents : list (string * node)) (file_name : string) (sub : node)
    (full_name payload : string) :
    In (file_name, sub) contents ->
    file_at (posixpath.join dir_name file_name) sub full_name payload ->
    file_at dir_name (Dir readable contents) full_name payload.

(** Every directory the validator goes down into can be listed; it
    does not go below a directory that cannot be searched. *)
Fixpoint all_readable (n : node) : bool :=
  match n with
  | File _ | Undecodable _ | Unsearchable _ => true
  | Dir readable contents =>
      readable && forallb (fun entry => all_readable (snd entry)) contents
  end.

(** A list occurs as a contiguous segment of another. *)
Definition segment {A : Type} (l out : list A) : Prop :=
  exists pre post, out = pre ++ l ++ post.

(** What the loop of line 47 does on one entry of the listing of a
    directory that can be searched: the recursive call when
    [os.path.isdir] answers True, the File Check otherwise. *)
Definition visit (genfromtxt : string -> string -> option (list row))
  (dir_name : string) (entry : string * node) : result (list failure) :=
  let full_name := posixpath.join dir_name (fst entry) in
  if isdir true (snd entry)
  then _verify_sed_files genfromtxt full_name (Some (snd entry))
  else entry_check genfromtxt true full_name (snd entry) [].

(** The entries of a directory, whether it can be searched or not. *)
Definition entries (n : node) : list (string * node) :=
  match n with
  | Dir _ contents | Unsearchable contents => contents
  | File _ | Undecodable _ => []
  end.

(** A text file with the given full name and payload lies somewhere
    below [dir_name], whatever the permissions on the way. *)
Inductive file_in : string -> node -> string -> string -> Prop :=
| file_in_here (dir_name : string) (n : node) (file_name payload : string) :
    In (file_name, File payload) (entries n) ->
    file_in dir_name n (posixpath.join dir_name file_name) payload
| file_in_below (dir_name : string) (n : node) (file_name : string)
    (sub : node) (full_name payload : string) :
    In (file_name, sub) (entries n) ->
    file_in (posixpath.join dir_name file_name) sub full_name payload ->
    file_in dir_name n full_name payload.

(** Every file below the directory has the records of its File Check
    in the list the validator returns. *)
Definition every_file_reported
  (genfromtxt : string -> string -> option (list row))
  (dir_name : string) (n : node) : Prop :=
  forall out full_name payload,
    _verify_sed_files genfromtxt dir_name (Some n) = Ok out ->
    file_in dir_name n full_name payload ->
    exists records,
      file_check genfromtxt full_name payload [] = Ok records /\
      segment records out.

(** The full name of an entry that the validator checks as a file: a
    regular file reached through directories that can be listed and
    searched, or any entry of a directory that cannot be searched. *)
Inductive leaf_at : string -> node -> string -> Prop :=
| leaf_file (dir_name : string) (contents : list (string * node))
    (file_name : string) (entry : node) :
    In (file_name, entry) contents ->
    isdir true entry = false ->
    leaf_at dir_name (Dir true contents) (posixpath.join dir_name file_name)
| leaf_hidden (dir_name : string) (contents : list (string * node))
    (file_name : string) (entry : node) :
    In (file_name, entry) contents ->
    leaf_at dir_name (Unsearchable contents)
      (posixpath.join dir_name file_name)
| leaf_below (dir_name : string) (contents : list (string * node))
    (file_name : string) (sub : node) (full_name : string) :
    In (file_name, sub) contents ->
    leaf_at (posixpath.join dir_name file_name) sub full_name ->
    leaf_at dir_name (Dir true contents) full_name.

(** ** Sample files *)

(** The payload made of the given lines, each closed by a line feed. *)
Fixpoint unlines (lines : list string) : string :=
  match lines with
  | [] => EmptyString
  | l :: rest => (l ++ String LF (unlines rest))%string
  end.

Module Samples.

Definition good : string :=
  unlines ["# Flambda (ergs/s/cm^2/nm)"; "100.0 1.0"; "200.0 2.0"].
Definition badnan : string :=
  unlines ["# Flambda (ergs/s/cm^2/nm)"; "100.0 nan"; "200.0 2.0"].
Definition badheader : string :=
  unlines ["# Flambda ergs"; "100.0 1.0"].
Definition badboth : string :=
  unlines ["# Flambda ergs"; "100.0 nan"].
Definition bare : string :=
  unlines ["100.0 1.0"].
Definition onlyheader : string :=
  unlines ["# Wavelength (nm)"; "# Flambda ergs"].
Definition corrupt : string :=
  unlines ["100.0 1.0"; "200.0 2.0 3.0"].

(** The first bytes of [good] compressed by bzip2: not text. *)
Definition good_bz2 : string :=
  String "B" (String "Z" (String "h" (String "9" (String "1"
    (String "A" (String "Y" (String "&" (String "S" (String "Y"
      (String (ascii_of_nat 200) (String (ascii_of_nat 255) ""))))))))))).

(** The rows of the sample payloads. *)
Definition f64 (n : nat) : np.float64 := np.of_int (Z.of_nat n).
Definition good_rows : list row := [mkrow (f64 100) (f64 1); mkrow (f64 200) (f64 2)].
Definition badnan_rows : list row := [mkrow (f64 100) S754_nan; mkrow (f64 200) (f64 2)].
Definition one_row : list row := [mkrow (f64 100) (f64 1)].
Definition one_nan_row : list row := [mkrow (f64 100) S754_nan].

(** What a two-column numeric parser returns on the sample payloads:
    the rows of a file with two columns throughout (of the compressed
    one after decompression), and a refusal of [corrupt], whose second
    row has a third column.  Every other payload is refused; the name
    of the file plays no part. *)
Definition parse (full_name payload : string) : option (list row) :=
  if payload =? good then Some good_rows
  else if payload =? badnan then Some badnan_rows
  else if payload =? badheader then Some one_row
  else if payload =? badboth then Some one_nan_row
  else if payload =? bare then Some one_row
  else if payload =? onlyheader then Some []
  else if payload =? good_bz2 then Some good_rows
  else None.

(** A library tree with files five directories deep. *)
Definition listing : list (string * node) :=
    [ ("kurucz", Dir true
        [ ("good.dat", File good);
          ("a", Dir true [ ("b", Dir true [ ("c", Dir true [ ("d", Dir true
              [ ("badheader.dat", File badheader);
                ("badboth.dat", File badboth) ]) ]) ]) ]);
          ("corrupt.dat", File corrupt) ]);
      ("badnan.dat", File badnan);
      ("empty", Dir true []) ].

Definition library : node := Dir true listing.

(** A directory that can be listed but not searched, holding a
    sub-directory with a file that has a NaN. *)
Definition hidden : node :=
  Unsearchable [ ("sub", Dir true [ ("badnan.dat", File badnan) ]) ].

(** A directory where a compressed file that the parser loads comes
    before a file with a NaN. *)
Definition compressed : node :=
  Dir true [ ("good.dat.bz2", Undecodable good_bz2);
             ("badnan.dat", File badnan) ].

(** The same with a directory that cannot be listed. *)
Definition locked : node :=
  Dir true
    [ ("badnan.dat", File badnan);
      ("private", Dir false [ ("good.dat", File good) ]) ].

End Samples.

(** ** The script run as a program *)

(** [s.replace(old, new)] for a non-empty [old], scanning [s] from the
    left; [skip] counts the characters of a match still to be dropped. *)
Fixpoint replace_from (old new : string) (skip : nat) (s : string) : string :=
  match s with
  | EmptyString => EmptyString
  | String c rest =>
      match skip with
      | S k => replace_from old new k rest
      | O =>
          if startswith s old
          then (new ++ replace_from old new (String.length old - 1) rest)%string
          else String c (replace_from old new 0 rest)
      end
  end.

(** With an empty [old], [new] goes before every character and at the
    end. *)
Fixpoint replace_empty (new s : string) : string :=
  match s with
  | EmptyString => new
  | String c rest => (new ++ String c (replace_empty new rest))%string
  end.

Definition replace (s old new : string) : string :=
  match old with
  | EmptyString => replace_empty new s
  | String _ _ => replace_from old new 0 s
  end.

(** [old] occurs somewhere in [s]. *)
Fixpoint occurs (old s : string) : bool :=
  startswith s old ||
  match s with
  | EmptyString => false
  | String _ rest => occurs old rest
  end.

(** Lines 112-113: the text printed for one failure. *)
Definition format_failure (root_dir : string) (failed_file : failure) : string :=
  (replace (fst failed_file) root_dir "" ++ " failed because of: "
   ++ snd failed_file)%string.

(** Line 109: the text printed when nothing failed. *)
Definition looks_good : string := String LF "Everything looks good".

(** Line 105: the sub-directories of the library, in the order they are
    validated. *)
Definition sub_dirs : list string := ["starSED"; "galaxySED"; "agnSED"].

(** What a name designates among the entries of the root directory. *)
Definition lookup (root : list (string * node)) (name : string) : option node :=
  option_map snd (find (fun entry => fst entry =? name) root).

Section Main.

Variable genfromtxt : string -> string -> option (list row).

(** Line 106: the call for one sub-directory. *)
Definition validate (root_dir : string) (root : list (string * node))
  (sub_dir : string) : result (list failure) :=
  _verify_sed_files genfromtxt (posixpath.join root_dir sub_dir)
    (lookup root sub_dir).

(** Lines 104-106: the loop over the sub-directories. *)
Fixpoint main_loop (root_dir : string) (root : list (string * node))
  (subs : list string) (failures : list failure) : result (list failure) :=
  match subs with
  | [] => Ok failures
  | sub_dir :: rest =>
      out <- _verify_sed_files genfromtxt (posixpath.join root_dir sub_dir)
               (lookup root sub_dir) ;;
      main_loop root_dir root rest (failures ++ out)
  end.

(** Lines 104-113, once [root_dir] is known: [root] holds the entries
    of the directory it names (none when it names nothing).  The value
    is the sequence of texts handed to [print]. *)
Definition main (root_dir : string) (root : list (string * node))
  : result (list string) :=
  failures <- main_loop root_dir root sub_dirs [] ;;
  match failures with
  | [] => Ok [looks_good]
  | _ :: _ => Ok (map (format_failure root_dir) failures)
  end.

End Main.

(** No entry of the tree has a name beginning with the separator, as
    is the case of the names [os.listdir] returns. *)
Fixpoint names_ok (n : node) : bool :=
  match n with
  | File _ | Undecodable _ => true
  | Dir _ contents | Unsearchable contents =>
      forallb (fun entry =>
                 negb (startswith (fst entry) "/") && names_ok (snd entry))
        contents
  end.

(** The reasons a failure record can carry. *)
Definition known_reason (reason : string) : Prop :=
  reason = "nan" \/ reason = "header" \/ reason = "could not load".

(** Line feeds written as CR LF. *)
Fixpoint to_crlf (s : string) : string :=
  match s with
  | EmptyString => EmptyString
  | String c rest =>
      if Ascii.eqb c LF then String CR (String LF (to_crlf rest))
      else String c (to_crlf rest)
  end.

(** No carriage return in the text. *)
Fixpoint no_cr (s : string) : bool :=
  match s with
  | EmptyString => true
  | String c rest => negb (Ascii.eqb c CR) && no_cr rest
  end.

Module Installed.

(** A library root with its three sub-directories. *)
Definition root : list (string * node) :=
  [ ("README", File Samples.corrupt);
    ("starSED", Samples.library);
    ("galaxySED", Dir true [ ("Burst.spec.gz", File Samples.badheader) ]);
    ("agnSED", Dir true [ ("agn.spec", File Samples.good) ]) ].

(** A root whose files are all well-formed. *)
Definition clean : list (string * node) :=
  [ ("starSED", Dir true [ ("m", Dir true [ ("good.dat", File Samples.good) ]) ]);
    ("galaxySED", Dir true [ ("bare.dat", File Samples.bare) ]);
    ("agnSED", Dir true []) ].

(** A root without [agnSED]. *)
Definition partial : list (string * node) :=
  [ ("starSED", Samples.library);
    ("galaxySED", Dir true []) ].

End Installed.

(** * Properties *)

Ltac pick_entry := simpl; repeat first [left; reflexivity | right].
Ltac descend name := eapply (file_below _ _ _ name); [pick_entry|].

(** ** Streams hand out non-empty lines *)

Lemma readlines_nonempty (s : string) : Forall nonempty (readlines s).
Proof.
  induction s as [|c rest IH]; simpl.
  - constructor.
  - destruct (Ascii.eqb c LF).
    + constructor; [discriminate | exact IH].
    + destruct (readlines rest) as [|l ls].
      * constructor; [discriminate | constructor].
      * inversion IH; subst. constructor; [discriminate | assumption].
Qed.

Lemma text_lines_nonempty (payload : string) : Forall nonempty (text_lines payload).
Proof. apply readlines_nonempty. Qed.

(** ** The header loop in the words of the specification *)

Lemma last_line_cons (l : string) (ls : list string) :
  last_line (l :: ls) =
  match last_line ls with
  | Some h => Some h
  | None => Some l
  end.
Proof.
  destruct ls as [|l' ls']; [reflexivity|].
  change (last_line (l :: l' :: ls')) with (last_line (l' :: ls')).
  revert l'. induction ls' as [|l'' ls'' IH]; intros l'; [reflexivity|].
  change (last_line (l' :: l'' :: ls'')) with (last_line (l'' :: ls'')).
  specialize (IH l''). destruct (last_line (l'' :: ls'')); [reflexivity|].
  destruct (last_line ls''); discriminate.
Qed.

Lemma verdict_header (prev : option string) (l : string) (rest : list string) :
  starts_hash l = true -> verdict prev (l :: rest) = verdict (Some l) rest.
Proof.
  intros Hl. unfold verdict, header_seen, has_data_line, last_header.
  simpl header_lines. simpl after_header. rewrite Hl.
  rewrite last_line_cons. destruct (last_line (header_lines rest)); reflexivity.
Qed.

Lemma verdict_data (prev : option string) (l : string) (rest : list string) :
  starts_hash l = false ->
  verdict prev (l :: rest) =
  match prev with
  | Some h => negb (endswith h paren_newline)
  | None => false
  end.
Proof.
  intros Hl. unfold verdict, header_seen, has_data_line, last_header.
  simpl. rewrite Hl. reflexivity.
Qed.

Lemma header_loop_text (full_name : string) (lines : list string) :
  Forall nonempty lines ->
  forall (prev : option string) (failures : list failure),
    header_loop full_name (option_map Str prev) (map Str lines) failures =
    Ok (if verdict prev lines then failures ++ [(full_name, "header")]
        else failures).
Proof.
  induction 1 as [|l rest Hl _ IH]; intros prev failures.
  - reflexivity.
  - destruct l as [|c l']; [now elim Hl|].
    simpl map. simpl header_loop.
    destruct (Ascii.eqb c "#") eqn:Hc.
    + rewrite (verdict_header prev _ rest) by exact Hc.
      apply (IH (Some (String c l'))).
    + rewrite (verdict_data prev _ rest) by exact Hc.
      destruct prev as [h|]; simpl; [|reflexivity].
      destruct (endswith h paren_newline); reflexivity.
Qed.

Lemma header_loop_bytes (full_name : string) (lines : list string)
  (failures : list failure) :
  Forall nonempty lines ->
  header_loop full_name None (map Bytes lines) failures = Ok failures.
Proof.
  intros H. destruct H as [|l rest Hl _]; [reflexivity|].
  destruct l as [|c l']; [now elim Hl|]. reflexivity.
Qed.

Lemma header_check_text (full_name payload : string) (failures : list failure) :
  endswith full_name ".gz" = false ->
  header_check full_name payload failures =
  Ok (if verdict None (text_lines payload)
      then failures ++ [(full_name, "header")] else failures).
Proof.
  intros Hgz. unfold header_check, open. rewrite Hgz.
  apply (header_loop_text full_name _ (text_lines_nonempty payload) None).
Qed.

Lemma header_check_gz (full_name payload : string) (failures : list failure) :
  endswith full_name ".gz" = true ->
  header_check full_name payload failures = Ok failures.
Proof.
  intros Hgz. unfold header_check, gzip.open. rewrite Hgz.
  apply header_loop_bytes, readlines_nonempty.
Qed.

Lemma header_check_appends (full_name payload : string) (failures : list failure) :
  header_check full_name payload failures =
  Ok (failures ++ header_records full_name payload).
Proof.
  unfold header_records. destruct (endswith full_name ".gz") eqn:Hgz.
  - rewrite header_check_gz by exact Hgz. now rewrite app_nil_r.
  - rewrite header_check_text by exact Hgz.
    destruct (verdict None (text_lines payload)); [reflexivity|].
    now rewrite app_nil_r.
Qed.

(** ** The NaN test and the File Check, record by record *)

Lemma any_map_true {A : Type} (f : A -> bool) (l : list A) :
  np.any (map f l) = true <-> exists x, In x l /\ f x = true.
Proof.
  unfold np.any. rewrite existsb_exists. split.
  - intros [b [Hin Hb]]. apply in_map_iff in Hin as [x [Hx Hin]].
    exists x. split; [exact Hin | congruence].
  - intros [x [Hin Hx]]. exists (f x). split; [|exact Hx].
    apply in_map. exact Hin.
Qed.

Lemma has_nan_true (data : list row) : has_nan data = true <-> contains_nan data.
Proof.
  unfold has_nan, contains_nan. rewrite orb_true_iff, !any_map_true. split.
  - intros [[r [Hin Hr]] | [r [Hin Hr]]]; exists r; tauto.
  - intros [r [Hin [Hr | Hr]]]; [left | right]; exists r; tauto.
Qed.

Lemma has_nan_false (data : list row) : has_nan data = false <-> ~ contains_nan data.
Proof.
  rewrite <- has_nan_true. destruct (has_nan data); split; congruence.
Qed.

Lemma record_eqb_same (full_name reason : string) :
  record_eqb (full_name, reason) (full_name, reason) = true.
Proof. unfold record_eqb. simpl. now rewrite !String.eqb_refl. Qed.

Lemma record_eqb_other (full_name reason reason' : string) :
  (reason =? reason') = false ->
  record_eqb (full_name, reason) (full_name, reason') = false.
Proof. intros H. unfold record_eqb. simpl. rewrite H. apply andb_false_r. Qed.

Lemma count_header_records_other (full_name reason payload : string) :
  (reason =? "header") = false ->
  count_records full_name reason (header_records full_name payload) = 0.
Proof.
  intros H. unfold count_records, header_records.
  destruct (endswith full_name ".gz"); [reflexivity|].
  destruct (verdict None (text_lines payload)); [|reflexivity].
  simpl. now rewrite record_eqb_other.
Qed.

Lemma count_nan_records_other (full_name reason : string) (data : list row) :
  (reason =? "nan") = false ->
  count_records full_name reason (nan_records full_name data) = 0.
Proof.
  intros H. unfold count_records, nan_records.
  destruct (has_nan data); [|reflexivity].
  simpl. now rewrite record_eqb_other.
Qed.

Lemma count_records_app (full_name reason : string) (l l' : list failure) :
  count_records full_name reason (l ++ l') =
  count_records full_name reason l + count_records full_name reason l'.
Proof. unfold count_records. now rewrite filter_app, length_app. Qed.

Section FileCheck.

Variable genfromtxt : string -> string -> option (list row).

Lemma file_check_loaded (full_name payload : string) (data : list row)
  (failures : list failure) :
  genfromtxt full_name payload = Some data ->
  file_check genfromtxt full_name payload failures =
  Ok (failures ++ nan_records full_name data ++ header_records full_name payload).
Proof.
  intros Hload. unfold file_check, nan_records. rewrite Hload.
  rewrite header_check_appends.
  destruct (has_nan data); [now rewrite <- app_assoc | reflexivity].
Qed.

Lemma file_check_refused (full_name payload : string) (failures : list failure) :
  genfromtxt full_name payload = None ->
  file_check genfromtxt full_name payload failures =
  Ok (failures ++ [(full_name, "could not load")]).
Proof. intros Hload. unfold file_check. now rewrite Hload. Qed.

(** The File Check never raises, and what it appends does not depend on
    the failures already collected. *)
Lemma file_check_appends (full_name payload : string) (failures : list failure) :
  exists appended,
    file_check genfromtxt full_name payload [] = Ok appended /\
    file_check genfromtxt full_name payload failures = Ok (failures ++ appended).
Proof.
  destruct (genfromtxt full_name payload) as [data|] eqn:Hload.
  - exists (nan_records full_name data ++ header_records full_name payload).
    split; [apply (file_check_loaded _ _ _ []) | apply file_check_loaded];
      exact Hload.
  - exists [(full_name, "could not load")].
    split; [apply (file_check_refused _ _ []) | apply file_check_refused];
      exact Hload.
Qed.

End FileCheck.

(** The header of a text file decides the verdict of the loop. *)
Lemma verdict_header_ok (lines : list string) :
  header_ok lines -> verdict None lines = false.
Proof.
  unfold header_ok, verdict, header_seen. intros H.
  destruct (last_header lines) as [h|].
  - rewrite H. apply andb_false_r.
  - apply andb_false_r.
Qed.

Lemma verdict_bad_header (lines : list string) (h : string) :
  has_data_line lines = true -> last_header lines = Some h ->
  endswith h paren_newline = false -> verdict None lines = true.
Proof.
  intros Hdata Hlast Hend. unfold verdict, header_seen.
  now rewrite Hdata, Hlast, Hend.
Qed.

Lemma no_header_last (lines : list string) :
  header_lines lines = [] -> last_header lines = None.
Proof. intros H. unfold last_header. now rewrite H. Qed.

Lemma all_header_no_data (lines : list string) :
  Forall (fun l => starts_hash l = true) lines -> has_data_line lines = false.
Proof.
  unfold has_data_line. induction 1 as [|l rest Hl _ IH]; [reflexivity|].
  simpl. now rewrite Hl.
Qed.

(** A bad header in a file opened as text is reported. *)
Lemma bad_header_reported_text (genfromtxt : string -> string -> option (list row))
  (full_name payload h : string) (data : list row) (failures : list failure) :
  endswith full_name ".gz" = false ->
  genfromtxt full_name payload = Some data ->
  has_data_line (text_lines payload) = true ->
  last_header (text_lines payload) = Some h ->
  endswith h paren_newline = false ->
  file_check genfromtxt full_name payload failures =
  Ok (failures ++ nan_records full_name data ++ [(full_name, "header")]).
Proof.
  intros Hgz Hload Hdata Hlast Hend.
  rewrite (file_check_loaded _ _ _ data) by exact Hload.
  unfold header_records. rewrite Hgz.
  now rewrite (verdict_bad_header _ h).
Qed.

(** ** The File Check *)

(** C1. A file that the numeric parser loads and whose parsed data holds
    a NaN in the wavelength or the flux column gets exactly one record
    with reason 'nan' appended by the File Check. *)
Theorem nan_reported_once
  (genfromtxt : string -> string -> option (list row))
  (full_name payload : string) (data : list row) (failures : list failure) :
  genfromtxt full_name payload = Some data ->
  contains_nan data ->
  exists appended,
    file_check genfromtxt full_name payload failures = Ok (failures ++ appended) /\
    count_records full_name "nan" appended = 1.
Proof.
  intros Hload Hnan.
  exists (nan_records full_name data ++ header_records full_name payload).
  split; [now apply file_check_loaded|].
  rewrite count_records_app, count_header_records_other by reflexivity.
  apply has_nan_true in Hnan. unfold nan_records, count_records. rewrite Hnan.
  simpl. now rewrite record_eqb_same.
Qed.

Lemma nan_reported_once_witness :
  Samples.parse "starSED/badnan.dat" Samples.badnan = Some Samples.badnan_rows /\
  contains_nan Samples.badnan_rows /\
  exists appended,
    file_check Samples.parse "starSED/badnan.dat" Samples.badnan [] =
      Ok ([] ++ appended) /\
    count_records "starSED/badnan.dat" "nan" appended = 1.
Proof.
  assert (Hnan : contains_nan Samples.badnan_rows).
  { exists (mkrow (Samples.f64 100) S754_nan).
    split; [left; reflexivity | right; reflexivity]. }
  split; [reflexivity|]. split; [exact Hnan|].
  apply (nan_reported_once Samples.parse "starSED/badnan.dat" Samples.badnan
           Samples.badnan_rows []); [reflexivity | exact Hnan].
Defined.

(** C2. A file on which the numeric parsing raises gets exactly one
    record, with reason 'could not load'; the header check is skipped,
    so no 'nan' and no 'header' record is appended for it. *)
Theorem unparseable_could_not_load_only
  (genfromtxt : string -> string -> option (list row))
  (full_name payload : string) (failures : list failure) :
  genfromtxt full_name payload = None ->
  file_check genfromtxt full_name payload failures =
    Ok (failures ++ [(full_name, "could not load")]) /\
  count_records full_name "could not load" [(full_name, "could not load")] = 1 /\
  count_records full_name "nan" [(full_name, "could not load")] = 0 /\
  count_records full_name "header" [(full_name, "could not load")] = 0.
Proof.
  intros Hload. split; [now apply file_check_refused|].
  unfold count_records. simpl.
  rewrite record_eqb_same, !record_eqb_other by reflexivity.
  repeat split.
Qed.

Lemma unparseable_could_not_load_only_witness :
  Samples.parse "starSED/corrupt.dat" Samples.corrupt = None /\
  file_check Samples.parse "starSED/corrupt.dat" Samples.corrupt [] =
    Ok [("starSED/corrupt.dat", "could not load")].
Proof.
  split; [reflexivity|].
  apply (unparseable_could_not_load_only Samples.parse "starSED/corrupt.dat"
           Samples.corrupt []).
  reflexivity.
Defined.

(** C3. A loadable file whose last header line does not end with a
    closing parenthesis and a line feed should get a 'header' record.
    Evaluation at a file named [*.gz]: the data line follows a header
    line without the parenthesis, and the File Check appends nothing. *)
Theorem gz_bad_header_not_reported :
  let lines := text_lines Samples.badheader in
  Samples.parse "starSED/badheader.dat.gz" Samples.badheader = Some Samples.one_row /\
  has_data_line lines = true /\
  last_header lines = Some (unlines ["# Flambda ergs"]) /\
  endswith (unlines ["# Flambda ergs"]) paren_newline = false /\
  file_check Samples.parse "starSED/badheader.dat.gz" Samples.badheader [] = Ok [].
Proof. cbv zeta. repeat split. Qed.

(** C4. On a file that loads, the header check runs whether or not the
    NaN check appended a record: the File Check appends the record of
    the NaN check, if any, and then what the header check alone
    appends, so both records appear when both checks fail. *)
Theorem nan_and_header_independent
  (genfromtxt : string -> string -> option (list row))
  (full_name payload : string) (data : list row) (failures : list failure) :
  genfromtxt full_name payload = Some data ->
  exists h,
    header_check full_name payload [] = Ok h /\
    file_check genfromtxt full_name payload failures =
      Ok (failures ++ nan_records full_name data ++ h) /\
    (contains_nan data -> h <> [] ->
     nan_records full_name data ++ h =
       [(full_name, "nan"); (full_name, "header")]).
Proof.
  intros Hload. exists (header_records full_name payload).
  split; [apply (header_check_appends _ _ [])|].
  split; [now apply file_check_loaded|].
  intros Hnan Hh. apply has_nan_true in Hnan.
  unfold nan_records. rewrite Hnan. revert Hh. unfold header_records.
  destruct (endswith full_name ".gz"); [now intros []|].
  destruct (verdict None (text_lines payload)); [reflexivity | now intros []].
Qed.

Lemma nan_and_header_independent_witness :
  Samples.parse "starSED/badboth.dat" Samples.badboth = Some Samples.one_nan_row /\
  header_check "starSED/badboth.dat" Samples.badboth [] =
    Ok [("starSED/badboth.dat", "header")] /\
  file_check Samples.parse "starSED/badboth.dat" Samples.badboth [] =
    Ok [("starSED/badboth.dat", "nan"); ("starSED/badboth.dat", "header")].
Proof.
  split; [reflexivity|].
  destruct (nan_and_header_independent Samples.parse "starSED/badboth.dat"
              Samples.badboth Samples.one_nan_row [] eq_refl)
    as [h [Hh [Hcheck _]]].
  split; [reflexivity|].
  rewrite Hcheck. f_equal.
  assert (E : Ok h = Ok [("starSED/badboth.dat", "header")])
    by (rewrite <- Hh; reflexivity).
  injection E as ->. reflexivity.
Defined.

(** C5. A well-formed file (the parser loads it, no NaN in either
    column, and the header is absent or its last line ends with a
    closing parenthesis and a line feed) gets no record at all. *)
Theorem well_formed_no_failure
  (genfromtxt : string -> string -> option (list row))
  (full_name payload : string) (data : list row) (failures : list failure) :
  genfromtxt full_name payload = Some data ->
  ~ contains_nan data ->
  header_ok (text_lines payload) ->
  file_check genfromtxt full_name payload failures = Ok failures.
Proof.
  intros Hload Hnan Hheader.
  rewrite (file_check_loaded _ _ _ data) by exact Hload.
  apply has_nan_false in Hnan. unfold nan_records, header_records.
  rewrite Hnan, (verdict_header_ok _ Hheader).
  destruct (endswith full_name ".gz"); now rewrite app_nil_r.
Qed.

Lemma well_formed_no_failure_witness :
  Samples.parse "starSED/good.dat" Samples.good = Some Samples.good_rows /\
  ~ contains_nan Samples.good_rows /\
  header_ok (text_lines Samples.good) /\
  file_check Samples.parse "starSED/good.dat" Samples.good [] = Ok [].
Proof.
  assert (Hnan : ~ contains_nan Samples.good_rows).
  { apply has_nan_false. reflexivity. }
  assert (Hheader : header_ok (text_lines Samples.good)) by reflexivity.
  split; [reflexivity|]. split; [exact Hnan|]. split; [exact Hheader|].
  apply (well_formed_no_failure Samples.parse "starSED/good.dat" Samples.good
           Samples.good_rows []); [reflexivity | exact Hnan | exact Hheader].
Defined.

(** C6. A file without any header line (no line beginning with '#'
    before the first data line) never gets a 'header' record, whatever
    its data and whether or not it loads. *)
Theorem no_header_no_header_failure
  (genfromtxt : string -> string -> option (list row))
  (full_name payload : string) (failures : list failure) :
  header_lines (text_lines payload) = [] ->
  exists appended,
    file_check genfromtxt full_name payload failures = Ok (failures ++ appended) /\
    count_records full_name "header" appended = 0.
Proof.
  intros Hnone.
  destruct (genfromtxt full_name payload) as [data|] eqn:Hload.
  - exists (nan_records full_name data).
    rewrite (file_check_loaded _ _ _ data) by exact Hload.
    split; [|now apply count_nan_records_other].
    unfold header_records, verdict, header_seen.
    rewrite (no_header_last _ Hnone), andb_false_r.
    destruct (endswith full_name ".gz"); now rewrite app_nil_r.
  - exists [(full_name, "could not load")].
    split; [now apply file_check_refused|].
    unfold count_records. simpl. now rewrite record_eqb_other.
Qed.

Lemma no_header_no_header_failure_witness :
  header_lines (text_lines Samples.bare) = [] /\
  exists appended,
    file_check Samples.parse "starSED/bare.dat" Samples.bare [] =
      Ok ([] ++ appended) /\
    count_records "starSED/bare.dat" "header" appended = 0.
Proof.
  split; [reflexivity|].
  apply (no_header_no_header_failure Samples.parse "starSED/bare.dat"
           Samples.bare []).
  reflexivity.
Defined.

(** C9. The header check on a file named [*.gz] should append the same
    'header' records as on a plain file with the same text.
    Evaluation on one payload under two names: the plain file gets the
    record, the [*.gz] file gets none. *)
Theorem gz_header_check_differs :
  header_check "starSED/sed.dat" Samples.badheader [] =
    Ok [("starSED/sed.dat", "header")] /\
  header_check "starSED/sed.dat.gz" Samples.badheader [] = Ok [].
Proof. split; reflexivity. Qed.

(** C10. A file that loads and in which every line begins with '#'
    gets no 'header' record, whatever its last line ends with: the
    File Check appends the records of the NaN check only. *)
Theorem all_header_lines_no_header_failure
  (genfromtxt : string -> string -> option (list row))
  (full_name payload : string) (data : list row) (failures : list failure) :
  genfromtxt full_name payload = Some data ->
  Forall (fun l => starts_hash l = true) (text_lines payload) ->
  file_check genfromtxt full_name payload failures =
    Ok (failures ++ nan_records full_name data) /\
  count_records full_name "header" (nan_records full_name data) = 0.
Proof.
  intros Hload Hall.
  split; [|now apply count_nan_records_other].
  rewrite (file_check_loaded _ _ _ data) by exact Hload.
  unfold header_records, verdict.
  rewrite (all_header_no_data _ Hall). simpl.
  destruct (endswith full_name ".gz"); now rewrite app_nil_r.
Qed.

Lemma all_header_lines_no_header_failure_witness :
  Samples.parse "starSED/onlyheader.dat" Samples.onlyheader = Some [] /\
  Forall (fun l => starts_hash l = true) (text_lines Samples.onlyheader) /\
  last_header (text_lines Samples.onlyheader) = Some (unlines ["# Flambda ergs"]) /\
  endswith (unlines ["# Flambda ergs"]) paren_newline = false /\
  file_check Samples.parse "starSED/onlyheader.dat" Samples.onlyheader [] = Ok [].
Proof.
  assert (Hall : Forall (fun l => starts_hash l = true)
                   (text_lines Samples.onlyheader)).
  { repeat constructor. }
  split; [reflexivity|]. split; [exact Hall|].
  split; [reflexivity|]. split; [reflexivity|].
  apply (all_header_lines_no_header_failure Samples.parse
           "starSED/onlyheader.dat" Samples.onlyheader [] []);
    [reflexivity | exact Hall].
Defined.

(** ** The Tree Validator *)

Lemma segment_trans {A : Type} (l m out : list A) :
  segment l m -> segment m out -> segment l out.
Proof.
  intros [p [q ->]] [p' [q' ->]]. exists (p' ++ p), (q ++ q').
  now rewrite <- !app_assoc.
Qed.

Lemma sequence_segment {A : Type} (rs : list (result (list A)))
  (out : list A) (r : result (list A)) :
  concat_results rs = Ok out -> In r rs ->
  exists l, r = Ok l /\ segment l out.
Proof.
  unfold concat_results. revert out.
  induction rs as [|r0 rest IH]; intros out Hout Hin; [now elim Hin|].
  simpl in Hout. destruct r0 as [l0|e]; [|discriminate]. simpl in Hout.
  destruct (sequence rest) as [ls|e] eqn:Hrest; [|discriminate].
  simpl in Hout. injection Hout as <-.
  destruct Hin as [<- | Hin].
  - exists l0. split; [reflexivity|]. now exists [], (List.concat ls).
  - destruct (IH (List.concat ls) eq_refl Hin) as [l [-> [pre [post Hseg]]]].
    exists l. split; [reflexivity|]. exists (l0 ++ pre), post.
    rewrite Hseg. now rewrite <- app_assoc.
Qed.

Lemma concat_results_returns {A : Type} (rs : list (result (list A))) :
  Forall (fun r => exists l, r = Ok l) rs ->
  exists out, concat_results rs = Ok out.
Proof.
  unfold concat_results. induction 1 as [|r rest [l ->] _ [out IH]]; simpl.
  - now exists [].
  - destruct (sequence rest) as [ls|e]; [|discriminate]. simpl.
    now exists (l ++ List.concat ls).
Qed.

(** Induction on a tree, with the property known for every entry of a
    directory. *)
Lemma node_nested_ind (P : node -> Prop) :
  (forall payload, P (File payload)) ->
  (forall readable contents,
      Forall (fun entry => P (snd entry)) contents -> P (Dir readable contents)) ->
  (forall raw, P (Undecodable raw)) ->
  (forall contents,
      Forall (fun entry => P (snd entry)) contents -> P (Unsearchable contents)) ->
  forall n, P n.
Proof.
  intros HFile HDir HRaw HHidden. fix IH 1.
  assert (Hall : forall contents : list (string * node),
             Forall (fun entry => P (snd entry)) contents).
  { induction contents as [|[file_name sub] rest IHrest].
    - constructor.
    - constructor; [apply IH | exact IHrest]. }
  intros [payload | readable contents | raw | contents].
  - apply HFile.
  - apply HDir, Hall.
  - apply HRaw.
  - apply HHidden, Hall.
Qed.

Section Tree.

Variable genfromtxt : string -> string -> option (list row).

(** What a check appends does not depend on the failures already
    collected. *)
Lemma undecodable_check_acc (full_name raw : string) (failures : list failure) :
  undecodable_check genfromtxt full_name raw failures =
  (out <- undecodable_check genfromtxt full_name raw [] ;; Ok (failures ++ out)).
Proof.
  unfold undecodable_check.
  destruct (genfromtxt full_name raw) as [data|]; [|reflexivity].
  destruct (endswith full_name ".gz"); [|reflexivity].
  rewrite !header_check_appends. simpl.
  destruct (has_nan data); [now rewrite <- app_assoc | reflexivity].
Qed.

Lemma entry_check_acc (searchable : bool) (full_name : string) (entry : node)
  (failures : list failure) :
  entry_check genfromtxt searchable full_name entry failures =
  (out <- entry_check genfromtxt searchable full_name entry [] ;;
   Ok (failures ++ out)).
Proof.
  unfold entry_check. destruct searchable; [|reflexivity].
  destruct entry as [payload | readable contents | raw | contents];
    try reflexivity.
  - destruct (file_check_appends genfromtxt full_name payload failures)
      as [appended [Hnil Happ]].
    now rewrite Hnil, Happ.
  - apply undecodable_check_acc.
Qed.

Lemma verify_tree_listing (dir_name : string) (contents : list (string * node)) :
  verify_tree genfromtxt dir_name (Dir true contents) =
  concat_results (map (visit genfromtxt dir_name) contents).
Proof.
  cbn [verify_tree].
  match goal with
  | |- ?loop contents [] = _ =>
      enough (H : forall failures,
                 loop contents failures =
                 (out <- concat_results (map (visit genfromtxt dir_name) contents) ;;
                  Ok (failures ++ out)))
  end.
  { rewrite H. destruct (concat_results (map (visit genfromtxt dir_name) contents));
      reflexivity. }
  induction contents as [|[file_name entry] rest IH]; intros failures.
  - simpl. now rewrite app_nil_r.
  - unfold concat_results. cbn [map sequence].
    unfold visit at 1. cbn [fst snd]. unfold _verify_sed_files.
    destruct (isdir true entry).
    + destruct (verify_tree genfromtxt (posixpath.join dir_name file_name) entry)
        as [l|e]; [|reflexivity].
      cbn [bind]. rewrite IH. unfold concat_results.
      destruct (sequence (map (visit genfromtxt dir_name) rest)) as [ls|e]; simpl;
        [now rewrite app_assoc | reflexivity].
    + rewrite entry_check_acc.
      destruct (entry_check genfromtxt true
                  (posixpath.join dir_name file_name) entry []) as [l|e];
        [|reflexivity].
      cbn [bind]. rewrite IH. unfold concat_results.
      destruct (sequence (map (visit genfromtxt dir_name) rest)) as [ls|e]; simpl;
        [now rewrite app_assoc | reflexivity].
Qed.

(** In a directory that cannot be searched every entry is recorded as
    'could not load', sub-directories included, and nothing below is
    looked at. *)
Lemma verify_tree_unsearchable (dir_name : string)
  (contents : list (string * node)) :
  verify_tree genfromtxt dir_name (Unsearchable contents) =
  Ok (map (fun entry => (posixpath.join dir_name (fst entry), "could not load"))
        contents).
Proof.
  cbn [verify_tree].
  match goal with
  | |- ?loop contents [] = Ok ?out =>
      enough (H : forall failures,
                 loop contents failures = Ok (failures ++ out))
        by exact (H [])
  end.
  induction contents as [|[file_name entry] rest IH]; intros failures.
  - simpl. now rewrite app_nil_r.
  - cbn [isdir andb entry_check bind map fst]. rewrite IH.
    now rewrite <- app_assoc.
Qed.

(** Every file of a tree on which the validator returns has been
    checked under its full name, and its records are in the output. *)
Lemma verify_tree_visits (dir_name : string) (n : node)
  (full_name payload : string) :
  file_at dir_name n full_name payload ->
  forall out, verify_tree genfromtxt dir_name n = Ok out ->
  exists records,
    file_check genfromtxt full_name payload [] = Ok records /\
    segment records out.
Proof.
  induction 1 as [dir_name readable contents file_name payload Hin
                 | dir_name readable contents file_name sub full_name payload
                     Hin Hsub IH];
    intros out Hout.
  - destruct readable; [|discriminate].
    rewrite verify_tree_listing in Hout.
    apply (sequence_segment _ _ (visit genfromtxt dir_name (file_name, File payload)) Hout).
    apply in_map. exact Hin.
  - destruct readable; [|discriminate].
    rewrite verify_tree_listing in Hout.
    destruct (sequence_segment _ _ (visit genfromtxt dir_name (file_name, sub)) Hout)
      as [l [Hl Hseg]]; [apply in_map; exact Hin|].
    destruct sub as [p | r sub | raw | sub]; try solve [inversion Hsub].
    unfold visit in Hl. simpl in Hl.
    destruct (IH l Hl) as [records [Hrec Hseg']].
    exists records. split; [exact Hrec|].
    exact (segment_trans _ _ _ Hseg' Hseg).
Qed.

End Tree.

(** The records of the File Check carry the full name it was given. *)
Lemma file_check_names (genfromtxt : string -> string -> option (list row))
  (full_name payload : string) (records : list failure) :
  file_check genfromtxt full_name payload [] = Ok records ->
  forall r, In r records -> fst r = full_name.
Proof.
  intros Hcheck r Hin.
  destruct (genfromtxt full_name payload) as [data|] eqn:Hload.
  - rewrite (file_check_loaded _ _ _ data) in Hcheck by exact Hload.
    injection Hcheck as <-. simpl in Hin. apply in_app_or in Hin.
    unfold nan_records, header_records in Hin.
    destruct Hin as [Hin | Hin].
    + destruct (has_nan data); [|now elim Hin].
      destruct Hin as [<- | []]. reflexivity.
    + destruct (endswith full_name ".gz"); [now elim Hin|].
      destruct (verdict None (text_lines payload)); [|now elim Hin].
      destruct Hin as [<- | []]. reflexivity.
  - rewrite file_check_refused in Hcheck by exact Hload.
    injection Hcheck as <-. destruct Hin as [<- | []]. reflexivity.
Qed.

(** C7. On a directory the Tree Validator's output is the
    concatenation, in the order of the listing, of the recursive
    result of each sub-directory and of the File Check of each other
    entry, so that every file at any depth is visited and its
    failures are in the output under its full path.

    As amended: each entry of a directory that can be listed and
    searched contributes the recursive result when [os.path.isdir]
    answers True and the File Check otherwise; a directory that can be
    listed but not searched contributes one 'could not load' record
    per entry, sub-directories included; and whenever the validator
    returns, every file reached through directories that can be
    listed and searched has the records of its File Check in the
    output, contiguous and under its full path. *)
Theorem tree_output_is_concatenation
  (genfromtxt : string -> string -> option (list row))
  (dir_name : string) (contents : list (string * node)) :
  _verify_sed_files genfromtxt dir_name (Some (Dir true contents)) =
    concat_results (map (visit genfromtxt dir_name) contents) /\
  _verify_sed_files genfromtxt dir_name (Some (Unsearchable contents)) =
    Ok (map (fun entry =>
               (posixpath.join dir_name (fst entry), "could not load"))
          contents) /\
  (forall out full_name payload,
     _verify_sed_files genfromtxt dir_name (Some (Dir true contents)) = Ok out ->
     file_at dir_name (Dir true contents) full_name payload ->
     exists records,
       file_check genfromtxt full_name payload [] = Ok records /\
       segment records out /\
       (forall r, In r records -> In r out /\ fst r = full_name)).
Proof.
  split; [apply verify_tree_listing|].
  split; [apply verify_tree_unsearchable|].
  intros out full_name payload Hout Hfile.
  destruct (verify_tree_visits genfromtxt _ _ _ _ Hfile out Hout)
    as [records [Hcheck Hseg]].
  exists records. split; [exact Hcheck|]. split; [exact Hseg|].
  intros r Hin. split; [|exact (file_check_names _ _ _ _ Hcheck r Hin)].
  destruct Hseg as [pre [post ->]].
  apply in_or_app. right. apply in_or_app. now left.
Qed.

Lemma deep_file_in_library :
  file_at "starSED" Samples.library
    "starSED/kurucz/a/b/c/d/badboth.dat" Samples.badboth.
Proof.
  unfold Samples.library, Samples.listing.
  descend "kurucz". descend "a". descend "b". descend "c". descend "d".
  refine (file_here _ true _ "badboth.dat" Samples.badboth _). pick_entry.
Defined.

Lemma tree_output_is_concatenation_witness :
  _verify_sed_files Samples.parse "starSED" (Some Samples.library) =
    Ok [("starSED/kurucz/a/b/c/d/badheader.dat", "header");
        ("starSED/kurucz/a/b/c/d/badboth.dat", "nan");
        ("starSED/kurucz/a/b/c/d/badboth.dat", "header");
        ("starSED/kurucz/corrupt.dat", "could not load");
        ("starSED/badnan.dat", "nan")] /\
  file_at "starSED" Samples.library
    "starSED/kurucz/a/b/c/d/badboth.dat" Samples.badboth /\
  exists records,
    file_check Samples.parse "starSED/kurucz/a/b/c/d/badboth.dat"
      Samples.badboth [] = Ok records /\
    segment records
      [("starSED/kurucz/a/b/c/d/badheader.dat", "header");
       ("starSED/kurucz/a/b/c/d/badboth.dat", "nan");
       ("starSED/kurucz/a/b/c/d/badboth.dat", "header");
       ("starSED/kurucz/corrupt.dat", "could not load");
       ("starSED/badnan.dat", "nan")] /\
    (forall r, In r records ->
       In r [("starSED/kurucz/a/b/c/d/badheader.dat", "header");
             ("starSED/kurucz/a/b/c/d/badboth.dat", "nan");
             ("starSED/kurucz/a/b/c/d/badboth.dat", "header");
             ("starSED/kurucz/corrupt.dat", "could not load");
             ("starSED/badnan.dat", "nan")] /\
       fst r = "starSED/kurucz/a/b/c/d/badboth.dat").
Proof.
  split; [reflexivity|]. split; [exact deep_file_in_library|].
  apply (proj2 (proj2 (tree_output_is_concatenation Samples.parse "starSED"
                         Samples.listing)));
    [reflexivity | exact deep_file_in_library].
Defined.

(** Without the condition on the directories the statement fails: on
    a directory that can be listed but not searched the validator
    returns, a file with a NaN lies in a sub-directory, and the output
    holds one 'could not load' record for the sub-directory and
    nothing for the file. *)
Lemma hidden_file_not_reported :
  ~ every_file_reported Samples.parse "starSED" Samples.hidden.
Proof.
  intros Hclaim.
  destruct (Hclaim [("starSED/sub", "could not load")]
              "starSED/sub/badnan.dat" Samples.badnan eq_refl)
    as [records [Hcheck [pre [post Hseg]]]].
  - apply (file_in_below "starSED" Samples.hidden "sub"
             (Dir true [("badnan.dat", File Samples.badnan)])).
    + simpl. tauto.
    + refine (file_in_here _ _ "badnan.dat" Samples.badnan _). simpl. tauto.
  - change (file_check Samples.parse "starSED/sub/badnan.dat" Samples.badnan [])
      with (@Ok (list failure) [("starSED/sub/badnan.dat", "nan")]) in Hcheck.
    injection Hcheck as <-.
    destruct pre as [|r0 pre]; [discriminate|].
    destruct pre; discriminate.
Qed.

(** C8. When the directory path names nothing, or names a directory
    that cannot be listed, the Tree Validator raises the access error
    of the listing: no list of failures is returned. *)
Theorem inaccessible_directory_raises
  (genfromtxt : string -> string -> option (list row))
  (dir_name : string) (target : option node) :
  target = None \/ (exists contents, target = Some (Dir false contents)) ->
  (exists e,
     _verify_sed_files genfromtxt dir_name target = Raise e /\
     (e = FileNotFoundError \/ e = PermissionError)) /\
  (forall out, _verify_sed_files genfromtxt dir_name target <> Ok out).
Proof.
  intros [-> | [contents ->]]; simpl.
  - split; [exists FileNotFoundError; auto | discriminate].
  - split; [exists PermissionError; auto | discriminate].
Qed.

Lemma inaccessible_directory_raises_witness :
  (@None node = None \/
   exists contents, @None node = Some (Dir false contents)) /\
  (exists e,
     _verify_sed_files Samples.parse "starSED" None = Raise e /\
     (e = FileNotFoundError \/ e = PermissionError)) /\
  (forall out, _verify_sed_files Samples.parse "starSED" None <> Ok out).
Proof.
  split; [left; reflexivity|].
  apply (inaccessible_directory_raises Samples.parse "starSED" None).
  left; reflexivity.
Defined.

(** A sub-directory that cannot be listed aborts the run as well, and
    the records collected before it are lost. *)
Example locked_library_aborts :
  _verify_sed_files Samples.parse "starSED" (Some Samples.locked) =
  Raise PermissionError.
Proof. reflexivity. Qed.

(** The whole sample library. *)
Example library_report :
  _verify_sed_files Samples.parse "starSED" (Some Samples.library) =
  Ok [("starSED/kurucz/a/b/c/d/badheader.dat", "header");
      ("starSED/kurucz/a/b/c/d/badboth.dat", "nan");
      ("starSED/kurucz/a/b/c/d/badboth.dat", "header");
      ("starSED/kurucz/corrupt.dat", "could not load");
      ("starSED/badnan.dat", "nan")].
Proof. reflexivity. Qed.

(** * Further properties of the validator *)

(** ** How a run over a tree can end *)

Lemma concat_results_in {A : Type} (rs : list (result (list A)))
  (out : list A) (x : A) :
  concat_results rs = Ok out -> In x out ->
  exists r l, In r rs /\ r = Ok l /\ In x l.
Proof.
  unfold concat_results. revert out.
  induction rs as [|r0 rest IH]; intros out Hout Hin; simpl in Hout.
  - injection Hout as <-. now elim Hin.
  - destruct r0 as [l0|e]; [|discriminate]. simpl in Hout.
    destruct (sequence rest) as [ls|e]; [|discriminate].
    simpl in Hout. injection Hout as <-. simpl in IH.
    apply in_app_or in Hin as [Hin | Hin].
    + exists (Ok l0), l0. simpl. auto.
    + destruct (IH _ eq_refl Hin) as [r [l [Hr [-> Hl]]]].
      exists (Ok l), l. simpl. auto.
Qed.

Lemma file_check_reasons (genfromtxt : string -> string -> option (list row))
  (full_name payload : string) (records : list failure) (r : failure) :
  file_check genfromtxt full_name payload [] = Ok records ->
  In r records -> known_reason (snd r).
Proof.
  intros Hcheck Hin. unfold known_reason.
  destruct (genfromtxt full_name payload) as [data|] eqn:Hload.
  - rewrite (file_check_loaded _ _ _ data) in Hcheck by exact Hload.
    injection Hcheck as <-. simpl in Hin. apply in_app_or in Hin.
    unfold nan_records, header_records in Hin.
    destruct Hin as [Hin | Hin].
    + destruct (has_nan data); [|now elim Hin].
      destruct Hin as [<- | []]. auto.
    + destruct (endswith full_name ".gz"); [now elim Hin|].
      destruct (verdict None (text_lines payload)); [|now elim Hin].
      destruct Hin as [<- | []]. auto.
  - rewrite file_check_refused in Hcheck by exact Hload.
    injection Hcheck as <-. destruct Hin as [<- | []]. auto.
Qed.

Section Outcome.

Variable genfromtxt : string -> string -> option (list row).

Lemma undecodable_check_records (full_name raw : string)
  (records : list failure) (r : failure) :
  undecodable_check genfromtxt full_name raw [] = Ok records ->
  In r records -> fst r = full_name /\ known_reason (snd r).
Proof.
  unfold undecodable_check, known_reason. intros Hcheck Hin.
  destruct (genfromtxt full_name raw) as [data|].
  - destruct (endswith full_name ".gz") eqn:Hgz; [|discriminate].
    rewrite header_check_gz in Hcheck by exact Hgz.
    injection Hcheck as <-.
    destruct (has_nan data); [|now elim Hin].
    destruct Hin as [<- | []]. simpl. auto.
  - injection Hcheck as <-. destruct Hin as [<- | []]. simpl. auto.
Qed.

Lemma entry_check_records (searchable : bool) (full_name : string)
  (entry : node) (records : list failure) (r : failure) :
  entry_check genfromtxt searchable full_name entry [] = Ok records ->
  In r records -> fst r = full_name /\ known_reason (snd r).
Proof.
  unfold entry_check. intros Hcheck Hin.
  assert (Hrefused : forall l,
             @Ok (list failure) [(full_name, "could not load")] = Ok l ->
             In r l -> fst r = full_name /\ known_reason (snd r)).
  { intros l E Hl. injection E as <-. destruct Hl as [<- | []].
    unfold known_reason. simpl. auto. }
  destruct searchable; [|exact (Hrefused _ Hcheck Hin)].
  destruct entry as [payload | readable contents | raw | contents].
  - split; [exact (file_check_names _ _ _ _ Hcheck r Hin)
           | exact (file_check_reasons _ _ _ _ _ Hcheck Hin)].
  - exact (Hrefused _ Hcheck Hin).
  - exact (undecodable_check_records _ _ _ _ Hcheck Hin).
  - exact (Hrefused _ Hcheck Hin).
Qed.

(** The validator returns only on a tree whose directories, as far as
    it goes down, can all be listed. *)
Lemma verify_tree_readable (n : node) :
  forall dir_name out,
    verify_tree genfromtxt dir_name n = Ok out -> all_readable n = true.
Proof.
  induction n as [payload | readable entries IH | raw | entries IH]
    using node_nested_ind; intros dir_name out Hout; try reflexivity.
  destruct readable; [|discriminate].
  rewrite verify_tree_listing in Hout.
  cbn [all_readable andb]. apply forallb_forall. intros [file_name sub] Hin.
  rewrite Forall_forall in IH. specialize (IH _ Hin). cbn [snd] in IH |- *.
  destruct (sequence_segment _ _ (visit genfromtxt dir_name (file_name, sub)) Hout)
    as [l [Hl _]]; [now apply in_map|].
  unfold visit in Hl. cbn [fst snd] in Hl.
  destruct (isdir true sub) eqn:Hdir.
  - exact (IH _ _ Hl).
  - destruct sub; try reflexivity; discriminate.
Qed.

(** Every record of the output bears the full name of an entry that
    was checked as a file, and one of the three reasons. *)
Lemma verify_tree_leaves (n : node) :
  forall dir_name out r,
    verify_tree genfromtxt dir_name n = Ok out -> In r out ->
    leaf_at dir_name n (fst r) /\ known_reason (snd r).
Proof.
  induction n as [payload | readable entries IH | raw | entries IH]
    using node_nested_ind; intros dir_name out r Hout Hin;
    try discriminate.
  - destruct readable; [|discriminate].
    rewrite verify_tree_listing in Hout.
    destruct (concat_results_in _ _ _ Hout Hin) as [res [l [Hres [-> Hl]]]].
    apply in_map_iff in Hres as [[file_name sub] [Hvisit Hentry]].
    rewrite Forall_forall in IH. specialize (IH _ Hentry). cbn [snd] in IH.
    unfold visit in Hvisit. cbn [fst snd] in Hvisit.
    destruct (isdir true sub) eqn:Hdir.
    + destruct (IH _ _ _ Hvisit Hl) as [Hleaf Hreason].
      split; [|exact Hreason].
      exact (leaf_below _ _ _ _ _ Hentry Hleaf).
    + destruct (entry_check_records _ _ _ _ _ Hvisit Hl) as [-> Hreason].
      split; [|exact Hreason].
      exact (leaf_file _ _ _ _ Hentry Hdir).
  - rewrite verify_tree_unsearchable in Hout. injection Hout as <-.
    apply in_map_iff in Hin as [[file_name sub] [<- Hentry]].
    split; [|unfold known_reason; simpl; auto].
    exact (leaf_hidden _ _ _ _ Hentry).
Qed.

End Outcome.

(** X1. The validator returns a list only if the path names a
    directory and every directory it goes down into can be listed: a
    directory that cannot be listed, met at any depth, makes the whole
    run raise, whatever was collected before. *)
Theorem returns_only_if_listable
  (genfromtxt : string -> string -> option (list row))
  (dir_name : string) (target : option node) (out : list failure) :
  _verify_sed_files genfromtxt dir_name target = Ok out ->
  exists n,
    target = Some n /\
    (exists contents, n = Dir true contents \/ n = Unsearchable contents) /\
    all_readable n = true.
Proof.
  intros Hout. destruct target as [n|]; [|discriminate].
  exists n. split; [reflexivity|].
  split; [|exact (verify_tree_readable genfromtxt n dir_name out Hout)].
  destruct n as [payload | readable contents | raw | contents];
    try discriminate.
  - destruct readable; [|discriminate]. exists contents. now left.
  - exists contents. now right.
Qed.

Lemma returns_only_if_listable_witness :
  _verify_sed_files Samples.parse "starSED" (Some Samples.library) =
    Ok [("starSED/kurucz/a/b/c/d/badheader.dat", "header");
        ("starSED/kurucz/a/b/c/d/badboth.dat", "nan");
        ("starSED/kurucz/a/b/c/d/badboth.dat", "header");
        ("starSED/kurucz/corrupt.dat", "could not load");
        ("starSED/badnan.dat", "nan")] /\
  exists n,
    Some Samples.library = Some n /\
    (exists contents, n = Dir true contents \/ n = Unsearchable contents) /\
    all_readable n = true.
Proof.
  split; [reflexivity|].
  apply (returns_only_if_listable Samples.parse "starSED"
           (Some Samples.library) _ eq_refl).
Defined.

(** X2. Every record of the output bears the full name of an entry the
    validator checked as a file: a regular file reached through
    directories that can be listed and searched, or an entry of a
    directory that can be listed but not searched.  No record is made
    up. *)
Theorem every_record_has_an_entry
  (genfromtxt : string -> string -> option (list row))
  (dir_name : string) (n : node) (out : list failure) (r : failure) :
  _verify_sed_files genfromtxt dir_name (Some n) = Ok out ->
  In r out ->
  leaf_at dir_name n (fst r).
Proof.
  intros Hout Hin.
  exact (proj1 (verify_tree_leaves genfromtxt n dir_name out r Hout Hin)).
Qed.

Lemma every_record_has_an_entry_witness :
  _verify_sed_files Samples.parse "starSED" (Some Samples.hidden) =
    Ok [("starSED/sub", "could not load")] /\
  leaf_at "starSED" Samples.hidden (fst ("starSED/sub", "could not load")).
Proof.
  split; [reflexivity|].
  apply (every_record_has_an_entry Samples.parse "starSED" Samples.hidden
           _ ("starSED/sub", "could not load") eq_refl).
  simpl. tauto.
Defined.

(** X3. The File Check on one file appends one of five sequences:
    nothing, 'nan', 'header', 'nan' then 'header', or 'could not load'
    alone.  There are never more than two records for a file, and
    'could not load' never comes with another one. *)
Theorem file_check_shapes
  (genfromtxt : string -> string -> option (list row))
  (full_name payload : string) (failures : list failure) :
  exists appended,
    file_check genfromtxt full_name payload failures = Ok (failures ++ appended) /\
    (appended = [] \/
     appended = [(full_name, "nan")] \/
     appended = [(full_name, "header")] \/
     appended = [(full_name, "nan"); (full_name, "header")] \/
     appended = [(full_name, "could not load")]).
Proof.
  destruct (genfromtxt full_name payload) as [data|] eqn:Hload.
  - exists (nan_records full_name data ++ header_records full_name payload).
    split; [now apply file_check_loaded|].
    unfold nan_records, header_records.
    destruct (has_nan data), (endswith full_name ".gz");
      try destruct (verdict None (text_lines payload)); simpl; tauto.
  - exists [(full_name, "could not load")].
    split; [now apply file_check_refused | tauto].
Qed.

(** X4. Whatever the tree, the reason of every record of the output is
    'nan', 'header' or 'could not load'. *)
Theorem reasons_are_closed
  (genfromtxt : string -> string -> option (list row))
  (dir_name : string) (n : node) (out : list failure) (r : failure) :
  _verify_sed_files genfromtxt dir_name (Some n) = Ok out ->
  In r out ->
  known_reason (snd r).
Proof.
  intros Hout Hin.
  exact (proj2 (verify_tree_leaves genfromtxt n dir_name out r Hout Hin)).
Qed.

Lemma reasons_are_closed_witness :
  _verify_sed_files Samples.parse "starSED" (Some Samples.library) =
    Ok [("starSED/kurucz/a/b/c/d/badheader.dat", "header");
        ("starSED/kurucz/a/b/c/d/badboth.dat", "nan");
        ("starSED/kurucz/a/b/c/d/badboth.dat", "header");
        ("starSED/kurucz/corrupt.dat", "could not load");
        ("starSED/badnan.dat", "nan")] /\
  known_reason (snd ("starSED/badnan.dat", "nan")).
Proof.
  split; [reflexivity|].
  apply (reasons_are_closed Samples.parse "starSED" Samples.library _
           ("starSED/badnan.dat", "nan") eq_refl).
  simpl. tauto.
Defined.

(** ** The two checks of the File Check, both ways *)

(** X6. For a file that loads, a 'nan' record is appended if and only
    if the parsed data holds a NaN in one of the two columns. *)
Theorem nan_record_iff
  (genfromtxt : string -> string -> option (list row))
  (full_name payload : string) (data : list row) (failures : list failure) :
  genfromtxt full_name payload = Some data ->
  exists appended,
    file_check genfromtxt full_name payload failures = Ok (failures ++ appended) /\
    (In (full_name, "nan") appended <-> contains_nan data).
Proof.
  intros Hload.
  exists (nan_records full_name data ++ header_records full_name payload).
  split; [now apply file_check_loaded|].
  rewrite <- has_nan_true. unfold nan_records, header_records.
  destruct (has_nan data); [simpl; tauto|].
  destruct (endswith full_name ".gz"); [simpl; split; [tauto | discriminate]|].
  destruct (verdict None (text_lines payload)); simpl.
  - split; [intros [H | []]; discriminate | discriminate].
  - split; [tauto | discriminate].
Qed.

Lemma nan_record_iff_witness :
  Samples.parse "starSED/good.dat" Samples.good = Some Samples.good_rows /\
  exists appended,
    file_check Samples.parse "starSED/good.dat" Samples.good [] =
      Ok ([] ++ appended) /\
    (In ("starSED/good.dat", "nan") appended <-> contains_nan Samples.good_rows).
Proof.
  split; [reflexivity|].
  apply (nan_record_iff Samples.parse "starSED/good.dat" Samples.good
           Samples.good_rows []).
  reflexivity.
Defined.

(** X7. For a file that loads and whose name does not end in '.gz', a
    'header' record is appended if and only if the file has a data
    line and the last header line before it does not end with a
    closing parenthesis and a line feed.  The other header lines and
    the data play no part. *)
Theorem header_record_iff
  (genfromtxt : string -> string -> option (list row))
  (full_name payload : string) (data : list row) (failures : list failure) :
  endswith full_name ".gz" = false ->
  genfromtxt full_name payload = Some data ->
  exists appended,
    file_check genfromtxt full_name payload failures = Ok (failures ++ appended) /\
    (In (full_name, "header") appended <->
     has_data_line (text_lines payload) = true /\
     exists h, last_header (text_lines payload) = Some h /\
               endswith h paren_newline = false).
Proof.
  intros Hgz Hload.
  exists (nan_records full_name data ++ header_records full_name payload).
  split; [now apply file_check_loaded|].
  assert (Hverdict : verdict None (text_lines payload) = true <->
            has_data_line (text_lines payload) = true /\
            exists h, last_header (text_lines payload) = Some h /\
                      endswith h paren_newline = false).
  { unfold verdict, header_seen. rewrite andb_true_iff.
    destruct (last_header (text_lines payload)) as [h|].
    - rewrite negb_true_iff. split.
      + intros [Hd He]. split; [exact Hd|]. now exists h.
      + intros [Hd [h' [E He]]]. injection E as <-. now split.
    - split; [intros [_ H]; discriminate|].
      intros [_ [h [E _]]]. discriminate. }
  rewrite <- Hverdict. unfold nan_records, header_records. rewrite Hgz.
  rewrite in_app_iff.
  destruct (has_nan data), (verdict None (text_lines payload)); simpl;
    split; try tauto; try discriminate;
    intros [[H | []] | H]; try discriminate; tauto.
Qed.

Lemma header_record_iff_witness :
  endswith "starSED/badheader.dat" ".gz" = false /\
  Samples.parse "starSED/badheader.dat" Samples.badheader = Some Samples.one_row /\
  exists appended,
    file_check Samples.parse "starSED/badheader.dat" Samples.badheader [] =
      Ok ([] ++ appended) /\
    (In ("starSED/badheader.dat", "header") appended <->
     has_data_line (text_lines Samples.badheader) = true /\
     exists h, last_header (text_lines Samples.badheader) = Some h /\
               endswith h paren_newline = false).
Proof.
  split; [reflexivity|]. split; [reflexivity|].
  apply (header_record_iff Samples.parse "starSED/badheader.dat"
           Samples.badheader Samples.one_row []); reflexivity.
Defined.

(** X8. For a file that loads and whose name ends in '.gz', the File
    Check appends the record of the NaN check and nothing else,
    whatever the header of the file. *)
Theorem gz_file_header_never_reported
  (genfromtxt : string -> string -> option (list row))
  (full_name payload : string) (data : list row) (failures : list failure) :
  endswith full_name ".gz" = true ->
  genfromtxt full_name payload = Some data ->
  file_check genfromtxt full_name payload failures =
    Ok (failures ++ (if has_nan data then [(full_name, "nan")] else [])).
Proof.
  intros Hgz Hload.
  rewrite (file_check_loaded _ _ _ data) by exact Hload.
  unfold header_records, nan_records. rewrite Hgz. now rewrite app_nil_r.
Qed.

Lemma gz_file_header_never_reported_witness :
  endswith "galaxySED/Burst.spec.gz" ".gz" = true /\
  Samples.parse "galaxySED/Burst.spec.gz" Samples.badboth =
    Some Samples.one_nan_row /\
  file_check Samples.parse "galaxySED/Burst.spec.gz" Samples.badboth [] =
    Ok [("galaxySED/Burst.spec.gz", "nan")].
Proof.
  split; [reflexivity|]. split; [reflexivity|].
  apply (gz_file_header_never_reported Samples.parse "galaxySED/Burst.spec.gz"
           Samples.badboth Samples.one_nan_row []); reflexivity.
Defined.

(** X9. The loop over the lines stops at the first line that is not a
    header line: what follows that line, be it data or further lines
    beginning with '#', has no effect on the result. *)
Theorem lines_after_first_data_line_ignored
  (full_name : string) (before : list pyline) (line : pyline)
  (rest rest' : list pyline) (prev_line : option pyline)
  (failures : list failure) :
  item0_is_hash line = Ok false ->
  header_loop full_name prev_line (before ++ line :: rest) failures =
  header_loop full_name prev_line (before ++ line :: rest') failures.
Proof.
  intros Hline. revert prev_line.
  induction before as [|l before IH]; intros prev_line; simpl.
  - now rewrite Hline.
  - destruct (item0_is_hash l) as [[|]|e]; simpl; [apply IH | | ]; reflexivity.
Qed.

Lemma lines_after_first_data_line_ignored_witness :
  item0_is_hash (Str "100.0 1.0") = Ok false /\
  header_loop "a.dat" None
    ([Str "# Flambda ergs"] ++ Str "100.0 1.0" :: [Str "# late)"; Str "1 2"]) [] =
  header_loop "a.dat" None
    ([Str "# Flambda ergs"] ++ Str "100.0 1.0" :: []) [].
Proof.
  split; [reflexivity|].
  apply (lines_after_first_data_line_ignored "a.dat" [Str "# Flambda ergs"]
           (Str "100.0 1.0")).
  reflexivity.
Defined.

(** ** Full names *)

Lemma startswith_app (s x : string) : startswith (s ++ x)%string s = true.
Proof.
  unfold startswith. induction s as [|c s IH]; simpl.
  - now destruct x.
  - destruct (ascii_dec c c) as [_|Hneq]; [exact IH | now elim Hneq].
Qed.

Lemma startswith_trans (a b c : string) :
  startswith b a = true -> startswith c b = true -> startswith c a = true.
Proof.
  unfold startswith. revert b c.
  induction a as [|x a IH]; intros b c Hab Hbc; [now destruct c|].
  destruct b as [|y b]; [discriminate|]. destruct c as [|z c]; [discriminate|].
  simpl in *.
  destruct (ascii_dec x y) as [->|]; [|discriminate].
  destruct (ascii_dec y z) as [->|]; [|discriminate].
  destruct (ascii_dec z z) as [_|Hneq]; [|now elim Hneq].
  exact (IH _ _ Hab Hbc).
Qed.

Lemma join_startswith (dir_name file_name : string) :
  startswith file_name "/" = false ->
  startswith (posixpath.join dir_name file_name) dir_name = true.
Proof.
  intros Hname. unfold posixpath.join. rewrite Hname.
  destruct ((dir_name =? "") || endswith dir_name "/"); apply startswith_app.
Qed.

Lemma leaf_at_startswith (dir_name : string) (n : node) (full_name : string) :
  leaf_at dir_name n full_name ->
  names_ok n = true ->
  startswith full_name dir_name = true.
Proof.
  induction 1 as [dir_name contents file_name entry Hin Hdir
                 | dir_name contents file_name entry Hin
                 | dir_name contents file_name sub full_name Hin Hsub IH];
    intros Hnames; simpl in Hnames; rewrite forallb_forall in Hnames;
    specialize (Hnames _ Hin); simpl in Hnames;
    apply andb_prop in Hnames as [Hname Hsubnames];
    apply negb_true_iff in Hname.
  - now apply join_startswith.
  - now apply join_startswith.
  - apply (startswith_trans _ (posixpath.join dir_name file_name)).
    + now apply join_startswith.
    + exact (IH Hsubnames).
Qed.

(** X10. When no name of the tree begins with the separator, the path
    of every record of the output begins with the directory name the
    validator was called with. *)
Theorem record_paths_start_with_dir_name
  (genfromtxt : string -> string -> option (list row))
  (dir_name : string) (n : node) (out : list failure) (r : failure) :
  names_ok n = true ->
  _verify_sed_files genfromtxt dir_name (Some n) = Ok out ->
  In r out ->
  startswith (fst r) dir_name = true.
Proof.
  intros Hnames Hout Hin.
  destruct (verify_tree_leaves genfromtxt n dir_name out r Hout Hin)
    as [Hleaf _].
  exact (leaf_at_startswith _ _ _ Hleaf Hnames).
Qed.

Lemma record_paths_start_with_dir_name_witness :
  names_ok Samples.library = true /\
  _verify_sed_files Samples.parse "/opt/sed/starSED" (Some Samples.library) =
    Ok [("/opt/sed/starSED/kurucz/a/b/c/d/badheader.dat", "header");
        ("/opt/sed/starSED/kurucz/a/b/c/d/badboth.dat", "nan");
        ("/opt/sed/starSED/kurucz/a/b/c/d/badboth.dat", "header");
        ("/opt/sed/starSED/kurucz/corrupt.dat", "could not load");
        ("/opt/sed/starSED/badnan.dat", "nan")] /\
  startswith (fst ("/opt/sed/starSED/kurucz/corrupt.dat", "could not load"))
    "/opt/sed/starSED" = true.
Proof.
  split; [reflexivity|]. split; [reflexivity|].
  apply (record_paths_start_with_dir_name Samples.parse "/opt/sed/starSED"
           Samples.library _ _ eq_refl eq_refl).
  simpl. tauto.
Defined.

(** ** Line endings *)

Lemma universal_newlines_crlf (s : string) :
  no_cr s = true -> universal_newlines (to_crlf s) = s.
Proof.
  induction s as [|c s IH]; intros Hs; [reflexivity|].
  simpl in Hs. apply andb_prop in Hs as [Hc Hs].
  apply negb_true_iff in Hc. simpl.
  destruct (Ascii.eqb c LF) eqn:Hlf.
  - apply Ascii.eqb_eq in Hlf as ->. simpl. now rewrite IH.
  - simpl. rewrite Hc. now rewrite IH.
Qed.

Lemma universal_newlines_plain (s : string) :
  no_cr s = true -> universal_newlines s = s.
Proof.
  induction s as [|c s IH]; intros Hs; [reflexivity|].
  simpl in Hs. apply andb_prop in Hs as [Hc Hs].
  apply negb_true_iff in Hc. simpl. rewrite Hc. now rewrite IH.
Qed.

(** X11. For a name that does not end in '.gz', the header check gives
    the same result on a text whose lines end in CR LF as on the same
    text with lines ending in LF: a header line ending with a closing
    parenthesis, a carriage return and a line feed is accepted. *)
Theorem crlf_header_check_same
  (full_name payload : string) (failures : list failure) :
  endswith full_name ".gz" = false ->
  no_cr payload = true ->
  header_check full_name (to_crlf payload) failures =
  header_check full_name payload failures.
Proof.
  intros Hgz Hcr. unfold header_check, open. rewrite Hgz.
  now rewrite universal_newlines_crlf, universal_newlines_plain.
Qed.

Lemma crlf_header_check_same_witness :
  endswith "starSED/good.dat" ".gz" = false /\
  no_cr Samples.good = true /\
  header_check "starSED/good.dat" (to_crlf Samples.good) [] =
  header_check "starSED/good.dat" Samples.good [].
Proof.
  split; [reflexivity|]. split; [reflexivity|].
  apply (crlf_header_check_same "starSED/good.dat" Samples.good []);
    reflexivity.
Defined.

(** ** The report *)

Lemma replace_from_skip (old new x rest : string) :
  replace_from old new (String.length x) (x ++ rest)%string =
  replace_from old new 0 rest.
Proof.
  induction x as [|c x IH]; simpl; [|exact IH].
  destruct rest; reflexivity.
Qed.

Lemma replace_from_match (old new rest : string) :
  old <> EmptyString ->
  replace_from old new 0 (old ++ rest)%string =
  (new ++ replace_from old new 0 rest)%string.
Proof.
  intros Hold. destruct old as [|c old]; [now elim Hold|].
  change (String c old ++ rest)%string with (String c (old ++ rest)%string).
  cbn [replace_from].
  change (String c (old ++ rest)%string) with (String c old ++ rest)%string.
  rewrite startswith_app. f_equal.
  change (String.length (String c old) - 1) with (String.length old - 0).
  rewrite Nat.sub_0_r. apply replace_from_skip.
Qed.

Lemma replace_from_absent (old new s : string) :
  occurs old s = false -> replace_from old new 0 s = s.
Proof.
  induction s as [|c s IH]; intros Habs; [reflexivity|].
  cbn [occurs] in Habs. apply orb_false_iff in Habs as [Hhere Hlater].
  cbn [replace_from]. rewrite Hhere. now rewrite IH.
Qed.

(** X12. With a non-empty root directory, the path printed for a
    failure whose full name is the root followed by [rest] is [rest]
    with every further occurrence of the root removed; it is [rest]
    itself when the root does not occur in it. *)
Theorem printed_path_is_relative
  (root_dir rest reason : string) :
  root_dir <> EmptyString ->
  format_failure root_dir ((root_dir ++ rest)%string, reason) =
    (replace rest root_dir "" ++ " failed because of: " ++ reason)%string /\
  (occurs root_dir rest = false ->
   format_failure root_dir ((root_dir ++ rest)%string, reason) =
     (rest ++ " failed because of: " ++ reason)%string).
Proof.
  intros Hroot.
  assert (E : replace (root_dir ++ rest) root_dir "" = replace rest root_dir "").
  { unfold replace. destruct root_dir as [|c root_dir]; [now elim Hroot|].
    now rewrite replace_from_match. }
  unfold format_failure. simpl fst. simpl snd. rewrite E.
  split; [reflexivity|].
  intros Habs. f_equal. unfold replace.
  destruct root_dir as [|c root_dir]; [now elim Hroot|].
  now apply replace_from_absent.
Qed.

Lemma printed_path_is_relative_witness :
  "/opt/sed" <> EmptyString /\
  format_failure "/opt/sed" ("/opt/sed/starSED/badnan.dat", "nan") =
    "/starSED/badnan.dat failed because of: nan".
Proof.
  split; [discriminate|].
  apply (printed_path_is_relative "/opt/sed" "/starSED/badnan.dat" "nan");
    [discriminate | reflexivity].
Defined.

Lemma string_length_app (a b : string) :
  String.length (a ++ b)%string = String.length a + String.length b.
Proof. induction a as [|c a IH]; simpl; [reflexivity | now rewrite IH]. Qed.

Lemma format_failure_long (root_dir : string) (r : failure) :
  known_reason (snd r) ->
  String.length looks_good < String.length (format_failure root_dir r).
Proof.
  intros Hreason. unfold format_failure. rewrite !string_length_app.
  destruct Hreason as [-> | [-> | ->]]; simpl; lia.
Qed.

Section Report.

Variable genfromtxt : string -> string -> option (list row).

Lemma main_loop_concat (root_dir : string) (root : list (string * node))
  (subs : list string) (failures : list failure) :
  main_loop genfromtxt root_dir root subs failures =
  (out <- concat_results (map (validate genfromtxt root_dir root) subs) ;;
   Ok (failures ++ out)).
Proof.
  revert failures. induction subs as [|sub subs IH]; intros failures.
  - simpl. now rewrite app_nil_r.
  - cbn [main_loop map]. fold (validate genfromtxt root_dir root sub).
    unfold concat_results. cbn [sequence].
    destruct (validate genfromtxt root_dir root sub) as [l|e]; [|reflexivity].
    cbn [bind]. rewrite IH. unfold concat_results.
    destruct (sequence (map (validate genfromtxt root_dir root) subs)) as [ls|e];
      [|reflexivity].
    simpl. now rewrite app_assoc.
Qed.

Lemma main_unfold (root_dir : string) (root : list (string * node)) :
  main genfromtxt root_dir root =
  (failures <- concat_results (map (validate genfromtxt root_dir root) sub_dirs) ;;
   match failures with
   | [] => Ok [looks_good]
   | _ :: _ => Ok (map (format_failure root_dir) failures)
   end).
Proof.
  unfold main. rewrite main_loop_concat.
  destruct (concat_results (map (validate genfromtxt root_dir root) sub_dirs));
    reflexivity.
Qed.

Lemma main_returns_iff (root_dir : string) (root : list (string * node)) :
  (exists lines, main genfromtxt root_dir root = Ok lines) <->
  (forall sub_dir, In sub_dir sub_dirs ->
     exists out, validate genfromtxt root_dir root sub_dir = Ok out).
Proof.
  rewrite main_unfold. split.
  - intros [lines Hlines] sub_dir Hin.
    destruct (concat_results (map (validate genfromtxt root_dir root) sub_dirs))
      as [failures|e] eqn:Hconcat; [|discriminate].
    destruct (sequence_segment _ _ (validate genfromtxt root_dir root sub_dir) Hconcat)
      as [l [Hl _]]; [now apply in_map|].
    now exists l.
  - intros Hall.
    destruct (concat_results_returns (map (validate genfromtxt root_dir root) sub_dirs))
      as [failures ->].
    + rewrite Forall_forall. intros res Hres.
      apply in_map_iff in Hres as [sub_dir [<- Hin]]. exact (Hall _ Hin).
    + destruct failures; simpl; eauto.
Qed.

Lemma main_prints (root_dir : string) (root : list (string * node))
  (lines : list string) (sub_dir : string) (l : list failure) (r : failure) :
  main genfromtxt root_dir root = Ok lines ->
  In sub_dir sub_dirs ->
  validate genfromtxt root_dir root sub_dir = Ok l ->
  In r l ->
  In (format_failure root_dir r) lines.
Proof.
  rewrite main_unfold. intros Hlines Hsub Hl Hr.
  destruct (concat_results (map (validate genfromtxt root_dir root) sub_dirs))
    as [failures|e] eqn:Hconcat; [|discriminate].
  destruct (sequence_segment _ _ (validate genfromtxt root_dir root sub_dir) Hconcat)
    as [l' [Hl' [pre [post Hseg]]]]; [now apply in_map|].
  rewrite Hl in Hl'. injection Hl' as <-.
  assert (Hin : In r failures).
  { rewrite Hseg. apply in_or_app. right. apply in_or_app. now left. }
  destruct failures as [|r0 failures]; [now elim Hin|].
  simpl bind in Hlines. injection Hlines as <-.
  exact (in_map (format_failure root_dir) _ _ Hin).
Qed.

End Report.

(** X13. The program prints only if each of starSED, galaxySED and
    agnSED is an entry of the root that is a directory, all of whose
    directories, as far as the validator goes down, can be listed.  If
    one of them is missing or cannot be listed the program raises
    without printing anything, whatever the failures found before. *)
Theorem main_prints_only_if_listable
  (genfromtxt : string -> string -> option (list row))
  (root_dir : string) (root : list (string * node)) (lines : list string)
  (sub_dir : string) :
  main genfromtxt root_dir root = Ok lines ->
  In sub_dir sub_dirs ->
  exists n,
    lookup root sub_dir = Some n /\
    isdir true n = true /\
    all_readable n = true.
Proof.
  intros Hmain Hsub.
  destruct (proj1 (main_returns_iff genfromtxt root_dir root)
              (ex_intro _ lines Hmain) sub_dir Hsub) as [out Hout].
  unfold validate in Hout.
  destruct (lookup root sub_dir) as [n|]; [|discriminate].
  exists n. split; [reflexivity|].
  split; [|exact (verify_tree_readable genfromtxt n _ out Hout)].
  destruct n as [payload | readable contents | raw | contents];
    try discriminate; reflexivity.
Qed.

Lemma main_prints_only_if_listable_witness :
  main Samples.parse "/opt/sed" Installed.clean = Ok [looks_good] /\
  In "galaxySED" sub_dirs /\
  exists n,
    lookup Installed.clean "galaxySED" = Some n /\
    isdir true n = true /\
    all_readable n = true.
Proof.
  split; [reflexivity|]. split; [simpl; tauto|].
  apply (main_prints_only_if_listable Samples.parse "/opt/sed"
           Installed.clean [looks_good] "galaxySED"); [reflexivity|].
  simpl. tauto.
Defined.

(** X14. When the program prints a report, every record the File Check
    gives for a file found at any depth under one of the three
    sub-directories is printed, as the path with the root removed,
    ' failed because of: ' and the reason. *)
Theorem main_prints_every_failure
  (genfromtxt : string -> string -> option (list row))
  (root_dir : string) (root : list (string * node)) (lines : list string)
  (sub_dir : string) (n : node) (full_name payload : string) :
  main genfromtxt root_dir root = Ok lines ->
  In sub_dir sub_dirs ->
  lookup root sub_dir = Some n ->
  file_at (posixpath.join root_dir sub_dir) n full_name payload ->
  exists records,
    file_check genfromtxt full_name payload [] = Ok records /\
    forall r, In r records ->
      In (replace (fst r) root_dir "" ++ " failed because of: " ++ snd r)%string
        lines.
Proof.
  intros Hmain Hsub Hlookup Hat.
  destruct (proj1 (main_returns_iff genfromtxt root_dir root)
              (ex_intro _ lines Hmain) sub_dir Hsub) as [l Hl].
  pose proof Hl as Hl'. unfold validate in Hl'. rewrite Hlookup in Hl'.
  destruct (verify_tree_visits genfromtxt _ _ _ _ Hat l Hl')
    as [records [Hcheck [pre [post Hseg]]]].
  exists records. split; [exact Hcheck|].
  intros r Hr.
  apply (main_prints genfromtxt root_dir root lines sub_dir l r Hmain Hsub Hl).
  rewrite Hseg. apply in_or_app. right. apply in_or_app. now left.
Qed.

Lemma file_in_installed_root :
  file_at (posixpath.join "/opt/sed" "starSED") Samples.library
    "/opt/sed/starSED/kurucz/corrupt.dat" Samples.corrupt.
Proof.
  unfold Samples.library, Samples.listing.
  descend "kurucz".
  refine (file_here _ true _ "corrupt.dat" Samples.corrupt _). pick_entry.
Defined.

Lemma main_prints_every_failure_witness :
  main Samples.parse "/opt/sed" Installed.root =
    Ok ["/starSED/kurucz/a/b/c/d/badheader.dat failed because of: header";
        "/starSED/kurucz/a/b/c/d/badboth.dat failed because of: nan";
        "/starSED/kurucz/a/b/c/d/badboth.dat failed because of: header";
        "/starSED/kurucz/corrupt.dat failed because of: could not load";
        "/starSED/badnan.dat failed because of: nan"] /\
  exists records,
    file_check Samples.parse "/opt/sed/starSED/kurucz/corrupt.dat"
      Samples.corrupt [] = Ok records /\
    forall r, In r records ->
      In (replace (fst r) "/opt/sed" "" ++ " failed because of: " ++ snd r)%string
        ["/starSED/kurucz/a/b/c/d/badheader.dat failed because of: header";
         "/starSED/kurucz/a/b/c/d/badboth.dat failed because of: nan";
         "/starSED/kurucz/a/b/c/d/badboth.dat failed because of: header";
         "/starSED/kurucz/corrupt.dat failed because of: could not load";
         "/starSED/badnan.dat failed because of: nan"].
Proof.
  split; [reflexivity|].
  apply (main_prints_every_failure Samples.parse "/opt/sed" Installed.root _
           "starSED" Samples.library);
    [reflexivity | simpl; tauto | reflexivity | exact file_in_installed_root].
Defined.

(** X15. The program prints the single text 'Everything looks good'
    (after a line feed) if and only if each of the three calls of the
    validator returns the empty list.  A report of failures is never
    mistaken for it. *)
Theorem main_looks_good_iff
  (genfromtxt : string -> string -> option (list row))
  (root_dir : string) (root : list (string * node)) :
  main genfromtxt root_dir root = Ok [looks_good] <->
  (forall sub_dir, In sub_dir sub_dirs ->
     _verify_sed_files genfromtxt (posixpath.join root_dir sub_dir)
       (lookup root sub_dir) = Ok []).
Proof.
  change (main genfromtxt root_dir root = Ok [looks_good] <->
          (forall sub_dir, In sub_dir sub_dirs ->
             validate genfromtxt root_dir root sub_dir = Ok [])).
  split.
  - intros Hmain sub_dir Hsub.
    pose proof Hmain as Hlines. rewrite main_unfold in Hlines.
    destruct (concat_results (map (validate genfromtxt root_dir root) sub_dirs))
      as [failures|e] eqn:Hconcat; [|discriminate].
    destruct (sequence_segment _ _ (validate genfromtxt root_dir root sub_dir) Hconcat)
      as [l [Hl [pre [post Hseg]]]]; [now apply in_map|].
    rewrite Hl. f_equal. destruct l as [|r l]; [reflexivity|]. exfalso.
    pose proof (main_prints genfromtxt _ _ _ _ _ r Hmain Hsub Hl
                  (or_introl eq_refl))
      as Hprinted.
    destruct Hprinted as [Habs | []].
    assert (Hreason : known_reason (snd r)).
    { unfold validate in Hl.
      destruct (lookup root sub_dir) as [n|]; [|discriminate].
      exact (proj2 (verify_tree_leaves genfromtxt n _ _ r Hl
                      (or_introl eq_refl))). }
    pose proof (format_failure_long root_dir r Hreason) as Hlen.
    rewrite <- Habs in Hlen. lia.
  - intros Hall. unfold main, sub_dirs. cbn [main_loop].
    fold (validate genfromtxt root_dir root "starSED").
    fold (validate genfromtxt root_dir root "galaxySED").
    fold (validate genfromtxt root_dir root "agnSED").
    rewrite !Hall by (unfold sub_dirs; simpl; tauto).
    reflexivity.
Qed.

Lemma main_looks_good_iff_witness :
  main Samples.parse "/opt/sed" Installed.clean = Ok [looks_good] /\
  (forall sub_dir, In sub_dir sub_dirs ->
     _verify_sed_files Samples.parse (posixpath.join "/opt/sed" sub_dir)
       (lookup Installed.clean sub_dir) = Ok []).
Proof.
  split; [reflexivity|].
  exact (proj1 (main_looks_good_iff Samples.parse "/opt/sed" Installed.clean)
           eq_refl).
Defined.

(** ** Files that are not text *)

(** X16. When a directory that can be listed and searched holds a
    regular file that is not text in the locale encoding, whose name
    does not end in '.gz' and which the parser loads, the validator
    does not return: the text stream of the header check raises
    outside the [try] block, the records collected so far are lost
    and the entries after the file are not visited. *)
Theorem undecodable_file_aborts
  (genfromtxt : string -> string -> option (list row))
  (dir_name : string) (contents : list (string * node))
  (file_name raw : string) (data : list row) :
  In (file_name, Undecodable raw) contents ->
  endswith (posixpath.join dir_name file_name) ".gz" = false ->
  genfromtxt (posixpath.join dir_name file_name) raw = Some data ->
  exists e,
    _verify_sed_files genfromtxt dir_name (Some (Dir true contents)) = Raise e.
Proof.
  intros Hin Hgz Hload.
  destruct (_verify_sed_files genfromtxt dir_name (Some (Dir true contents)))
    as [out|e] eqn:Hout; [exfalso | now exists e].
  unfold _verify_sed_files in Hout. rewrite verify_tree_listing in Hout.
  destruct (sequence_segment _ _
              (visit genfromtxt dir_name (file_name, Undecodable raw)) Hout)
    as [l [Hl _]]; [now apply in_map|].
  unfold visit, entry_check, undecodable_check in Hl. cbn [fst snd isdir andb] in Hl.
  rewrite Hload, Hgz in Hl. discriminate.
Qed.

Lemma undecodable_file_aborts_witness :
  In ("good.dat.bz2", Undecodable Samples.good_bz2)
    [ ("good.dat.bz2", Undecodable Samples.good_bz2);
      ("badnan.dat", File Samples.badnan) ] /\
  endswith (posixpath.join "starSED" "good.dat.bz2") ".gz" = false /\
  Samples.parse (posixpath.join "starSED" "good.dat.bz2") Samples.good_bz2 =
    Some Samples.good_rows /\
  exists e,
    _verify_sed_files Samples.parse "starSED" (Some Samples.compressed) = Raise e.
Proof.
  split; [simpl; tauto|]. split; [reflexivity|]. split; [reflexivity|].
  apply (undecodable_file_aborts Samples.parse "starSED" _ "good.dat.bz2"
           Samples.good_bz2 Samples.good_rows);
    [simpl; tauto | reflexivity | reflexivity].
Defined.

(** The run on the sample ends with the decoding error. *)
Example compressed_library_aborts :
  _verify_sed_files Samples.parse "starSED" (Some Samples.compressed) =
  Raise UnicodeDecodeError.
Proof. reflexivity. Qed.

(** A directory that cannot be searched: one record for its
    sub-directory, none for the file below. *)
Example hidden_library_report :
  _verify_sed_files Samples.parse "starSED" (Some Samples.hidden) =
  Ok [("starSED/sub", "could not load")].
Proof. reflexivity. Qed.
